(** * eshop-ddd: order fulfilment core

    A shallow embedding of the order-fulfilment core of the store backend:
    the [Money] value object, [OrderItem], the [Order] aggregate and its
    lifecycle, [OrderPricingService], the [Inventory] value object with the
    [Product] aggregate and [InventoryService], and the checkout command
    [CreateOrderCommand].

    JavaScript numbers are IEEE 754 binary64 values, modelled by Rocq's
    primitive floats; [Number.prototype.toString], [Math.round] and
    [Number.isInteger] follow ECMA-262.  A call that may throw returns a
    [result]; a method that mutates its receiver is a function from the
    receiver's state to an outcome and the state it leaves behind. *)

From Stdlib Require Import ZArith Floats Uint63 String Ascii List Lia DecimalString Bool.
From stdpp Require Import base strings gmap.
Import ListNotations.
Set Warnings "-inexact-float".
Open Scope string_scope.

(** ** JavaScript numbers *)

Module JS.

Definition number := float.

Definition isNaN (x : number) : bool := PrimFloat.is_nan x.

Definition isFinite (x : number) : bool :=
  negb (PrimFloat.is_nan x) && negb (PrimFloat.is_infinity x).

(** [x === y], [x < y], [x <= y], [x > y], [x >= y] on numbers. *)
Definition strict_eq (x y : number) : bool := PrimFloat.eqb x y.
Definition lt (x y : number) : bool := PrimFloat.ltb x y.
Definition le (x y : number) : bool := PrimFloat.leb x y.
Definition gt (x y : number) : bool := PrimFloat.ltb y x.
Definition ge (x y : number) : bool := PrimFloat.leb y x.
Arguments strict_eq (x y)%_float.
Arguments lt (x y)%_float.
Arguments le (x y)%_float.
Arguments gt (x y)%_float.
Arguments ge (x y)%_float.

(** The number of an integer of magnitude below 2^63 (exact below 2^53). *)
Definition of_Z (z : Z) : number :=
  match z with
  | Z0 => PrimFloat.zero
  | Zpos _ => PrimFloat.of_uint63 (Uint63.of_Z z)
  | Zneg p => PrimFloat.opp (PrimFloat.of_uint63 (Uint63.of_Z (Zpos p)))
  end.

(** [Number.isInteger]. *)
Definition isInteger (x : number) : bool :=
  match Prim2SF x with
  | S754_zero _ => true
  | S754_finite _ m e =>
      if (0 <=? e)%Z then true
      else (Z.pos m mod 2 ^ (- e) =? 0)%Z
  | _ => false
  end.

(** [Math.round]: the nearest integer, a tie going towards +Infinity. *)
Definition Math_round (x : number) : number :=
  match Prim2SF x with
  | S754_finite s m e =>
      if (0 <=? e)%Z then x
      else
        let d := (2 ^ (- e))%Z in
        if s then
          let n := (- ((d - 2 * Z.pos m) / (2 * d)))%Z in
          if (n =? 0)%Z then PrimFloat.neg_zero else PrimFloat.opp (of_Z n)
        else of_Z ((2 * Z.pos m + d) / (2 * d))
  | _ => x
  end.

Definition Math_abs (x : number) : number := PrimFloat.abs x.

(** The value [N * 2^e2 * 10^e10] as a fraction with a positive denominator. *)
Definition to_frac (N e2 e10 : Z) : Z * Z :=
  ((N * 2 ^ Z.max e2 0 * 10 ^ Z.max e10 0)%Z,
   (2 ^ Z.max (- e2) 0 * 10 ^ Z.max (- e10) 0)%Z).

Definition floor_frac (f : Z * Z) : Z := (fst f / snd f)%Z.
Definition ceil_frac (f : Z * Z) : Z := (- ((- fst f) / snd f))%Z.

Definition nearest_frac (f : Z * Z) : Z :=
  let q := (fst f / snd f)%Z in
  let r := (fst f mod snd f)%Z in
  match (2 * r ?= snd f)%Z with
  | Lt => q
  | Gt => (q + 1)%Z
  | Eq => if Z.even q then q else (q + 1)%Z
  end.

(** The least and greatest integer [s] for which [s * 10^q] lies in the
    rounding interval of [m * 2^e]: between the midpoints to the two
    neighbouring doubles, the midpoints included when [m] is even. *)
Definition candidates (m : positive) (e q : Z) : Z * Z :=
  let M := Z.pos m in
  let boundary := ((M =? 2 ^ 52) && (-1074 <? e))%Z in
  let lo := to_frac (4 * M - (if boundary then 1 else 2)) (e - 2) (- q) in
  let hi := to_frac (4 * M + 2) (e - 2) (- q) in
  if Z.even M then (ceil_frac lo, floor_frac hi)
  else ((floor_frac lo + 1)%Z, (ceil_frac hi - 1)%Z).

(** The shortest decimal that reads back as [m * 2^e]: the greatest exponent
    [q] that has a candidate, and the candidate closest to the value. *)
Fixpoint shortest (fuel : nat) (m : positive) (e q : Z) : Z * Z :=
  match fuel with
  | O => (0%Z, q)
  | S fuel' =>
      let '(slo, shi) := candidates m e q in
      if (slo <=? shi)%Z then
        let c := nearest_frac (to_frac (4 * Z.pos m) (e - 2) (- q)) in
        (Z.max slo (Z.min shi c), q)
      else shortest fuel' m e (q - 1)
  end.

Definition digits_of (s : Z) : string :=
  match s with
  | Zpos p => NilEmpty.string_of_uint (Pos.to_uint p)
  | _ => "0"
  end.

Fixpoint zeros (n : nat) : string :=
  match n with O => "" | S n' => String "0" (zeros n') end.

Definition substring_from (n : nat) (s : string) : string :=
  String.substring n (String.length s - n) s.

(** [Number::toString] in radix 10 for a positive finite number: with [k]
    digits [s] and [n] the position of the decimal point, plain digits when
    [k <= n <= 21], a fraction when [0 < n <= 21] or [-6 < n <= 0], and
    exponent notation otherwise. *)
Definition toString_pos (m : positive) (e : Z) : string :=
  let q0 := (((Z.log2 (Z.pos m) + e + 1) * 30103) / 100000 + 2)%Z in
  let '(s, q) := shortest 400 m e q0 in
  let ds := digits_of s in
  let k := Z.of_nat (String.length ds) in
  let n := (k + q)%Z in
  if ((k <=? n) && (n <=? 21))%Z then
    ds ++ zeros (Z.to_nat (n - k))
  else if ((0 <? n) && (n <=? 21))%Z then
    String.substring 0 (Z.to_nat n) ds ++ "." ++ substring_from (Z.to_nat n) ds
  else if ((-6 <? n) && (n <=? 0))%Z then
    "0." ++ zeros (Z.to_nat (- n)) ++ ds
  else
    let ex := (n - 1)%Z in
    let sign := if (ex <? 0)%Z then "-" else "+" in
    let exs := digits_of (Z.abs ex) in
    if (k =? 1)%Z then ds ++ "e" ++ sign ++ exs
    else String.substring 0 1 ds ++ "." ++ substring_from 1 ds ++ "e" ++ sign ++ exs.

Definition toString (x : number) : string :=
  match Prim2SF x with
  | S754_nan => "NaN"
  | S754_zero _ => "0"
  | S754_infinity false => "Infinity"
  | S754_infinity true => "-Infinity"
  | S754_finite false m e => toString_pos m e
  | S754_finite true m e => "-" ++ toString_pos m e
  end.

(** [String.prototype.split] with a one-character separator. *)
Fixpoint split_on (sep : ascii) (s : string) : list string :=
  match s with
  | EmptyString => [EmptyString]
  | String c s' =>
      if Ascii.eqb c sep then EmptyString :: split_on sep s'
      else match split_on sep s' with
           | h :: t => String c h :: t
           | [] => [String c EmptyString]
           end
  end.

(** [String.prototype.trim] for the ASCII white space characters; a string
    is its UTF-8 bytes, and the white space beyond ASCII is left in place. *)
Definition is_space (c : ascii) : bool :=
  let n := nat_of_ascii c in
  (n =? 32)%nat || ((9 <=? n)%nat && (n <=? 13)%nat).

Fixpoint trim_start (s : string) : string :=
  match s with
  | String c s' => if is_space c then trim_start s' else s
  | EmptyString => EmptyString
  end.

Fixpoint trim_end (s : string) : string :=
  match s with
  | String c s' =>
      match trim_end s' with
      | EmptyString => if is_space c then EmptyString else String c EmptyString
      | t => String c t
      end
  | EmptyString => EmptyString
  end.

Definition trim (s : string) : string := trim_end (trim_start s).

(** [Array.prototype.join]. *)
Fixpoint join (sep : string) (l : list string) : string :=
  match l with
  | [] => ""
  | [x] => x
  | x :: rest => x ++ sep ++ join sep rest
  end.

End JS.

(** ** Calls that may throw *)

(** A thrown [Error], by its message. *)
Definition Error := string.

Inductive result (A : Type) : Type :=
| Ok (a : A)
| Throw (e : Error).
Arguments Ok {A} a.
Arguments Throw {A} e.

Definition bind {A B : Type} (m : result A) (k : A -> result B) : result B :=
  match m with
  | Ok a => k a
  | Throw e => Throw e
  end.

Notation "'let*' x ':=' m 'in' k" := (bind m (fun x => k))
  (at level 10, x name, m at level 100, k at level 200).
Notation "'let*' ' p ':=' m 'in' k" := (bind m (fun x => match x with p => k end))
  (at level 10, p pattern, m at level 100, k at level 200).

Definition is_ok {A : Type} (m : result A) : bool :=
  match m with Ok _ => true | Throw _ => false end.

(** ** Money *)

Inductive Currency := CNY | USD | EUR.

Definition Currency_eqb (a b : Currency) : bool :=
  match a, b with
  | CNY, CNY | USD, USD | EUR, EUR => true
  | _, _ => false
  end.

Module Money.

Record t := mk { amount : JS.number; currency : Currency }.

(** [(amount.toString().split('.')[1] || '').length] *)
Definition decimalPlaces (a : JS.number) : nat :=
  String.length (nth 1 (JS.split_on "." (JS.toString a)) "").

(** The currency check of the source always passes on a [Currency]. *)
Definition validate (m : t) : result unit :=
  if JS.lt (amount m) 0%float then Throw "金额不能为负数"
  else if negb (JS.isFinite (amount m)) then Throw "金额必须是有效数字"
  else if (2 <? decimalPlaces (amount m))%nat then Throw "金额精度最多2位小数"
  else Ok tt.

Definition new (a : JS.number) (c : Currency) : result t :=
  let m := mk a c in
  let* _ := validate m in Ok m.

Definition getAmount (m : t) : JS.number := amount m.
Definition getCurrency (m : t) : Currency := currency m.

Definition add (this other : t) : result t :=
  if negb (Currency_eqb (currency this) (currency other))
  then Throw "不能对不同货币进行运算"
  else new (amount this + amount other)%float (currency this).

Definition subtract (this other : t) : result t :=
  if negb (Currency_eqb (currency this) (currency other))
  then Throw "不能对不同货币进行运算"
  else
    let result := (amount this - amount other)%float in
    if JS.lt result 0%float then Throw "减法结果不能为负数"
    else new result (currency this).

Definition multiply (this : t) (factor : JS.number) : result t :=
  if JS.lt factor 0%float then Throw "乘数不能为负数"
  else new (JS.Math_round (amount this * factor * 100) / 100)%float (currency this).

Definition divide (this : t) (divisor : JS.number) : result t :=
  if JS.le divisor 0%float then Throw "除数必须大于0"
  else new (JS.Math_round (amount this / divisor * 100) / 100)%float (currency this).

Definition equals (this other : t) : bool :=
  JS.strict_eq (amount this) (amount other)
  && Currency_eqb (currency this) (currency other).

Definition isGreaterThan (this other : t) : result bool :=
  if negb (Currency_eqb (currency this) (currency other))
  then Throw "不能比较不同货币"
  else Ok (JS.gt (amount this) (amount other)).

Definition isLessThan (this other : t) : result bool :=
  if negb (Currency_eqb (currency this) (currency other))
  then Throw "不能比较不同货币"
  else Ok (JS.lt (amount this) (amount other)).

Definition isZero (this : t) : bool := JS.strict_eq (amount this) 0%float.

Definition zero (c : Currency) : result t := new 0%float c.

End Money.

(** ** Enumerations of the order context *)

Module OrderStatus.

Inductive t :=
  PENDING | PAID | PROCESSING | SHIPPED | DELIVERED | CANCELLED | REFUNDED | COMPLETED.

Definition eqb (a b : t) : bool :=
  match a, b with
  | PENDING, PENDING | PAID, PAID | PROCESSING, PROCESSING | SHIPPED, SHIPPED
  | DELIVERED, DELIVERED | CANCELLED, CANCELLED | REFUNDED, REFUNDED
  | COMPLETED, COMPLETED => true
  | _, _ => false
  end.

End OrderStatus.

Module PaymentStatus.

Inductive t := PENDING | PROCESSING | COMPLETED | FAILED | CANCELLED | REFUNDED.

Definition eqb (a b : t) : bool :=
  match a, b with
  | PENDING, PENDING | PROCESSING, PROCESSING | COMPLETED, COMPLETED
  | FAILED, FAILED | CANCELLED, CANCELLED | REFUNDED, REFUNDED => true
  | _, _ => false
  end.

End PaymentStatus.

Module ShippingStatus.

Inductive t := PENDING | PREPARING | SHIPPED | IN_TRANSIT | DELIVERED | EXCEPTION.

Definition eqb (a b : t) : bool :=
  match a, b with
  | PENDING, PENDING | PREPARING, PREPARING | SHIPPED, SHIPPED
  | IN_TRANSIT, IN_TRANSIT | DELIVERED, DELIVERED | EXCEPTION, EXCEPTION => true
  | _, _ => false
  end.

End ShippingStatus.

Inductive PaymentMethod := ALIPAY | WECHAT_PAY | BANK_CARD | CREDIT_CARD | CASH_ON_DELIVERY.

(** A [Date], by its time value in milliseconds. *)
Definition Date := Z.

(** ** Address *)

Module Address.

Record t := mk {
  country : string;
  province : string;
  city : string;
  district : string;
  street : string;
  zipCode : string;
  contactName : string;
  contactPhone : string
}.

Definition getProvince (a : t) : string := province a.

End Address.

(** ** OrderItem *)

Module OrderItem.

Record ProductSnapshot := mkSnapshot {
  name : string;
  description : string;
  imageUrl : string
}.

Record t := mk {
  id : string;
  productId : string;
  productName : string;
  sku : string;
  quantity : JS.number;
  unitPrice : Money.t;
  totalPrice : Money.t;
  discountAmount : Money.t;
  productSnapshot : ProductSnapshot
}.

Definition validate (this : t) : result unit :=
  if String.eqb (productId this) "" then Throw "商品ID不能为空"
  else if String.eqb (productName this) "" || String.eqb (JS.trim (productName this)) ""
  then Throw "商品名称不能为空"
  else if String.eqb (sku this) "" || String.eqb (JS.trim (sku this)) ""
  then Throw "商品SKU不能为空"
  else if JS.le (quantity this) 0%float then Throw "商品数量必须大于0"
  else if negb (JS.isInteger (quantity this)) then Throw "商品数量必须是整数"
  else
    let* gross := Money.multiply (unitPrice this) (quantity this) in
    let* expectedTotal := Money.subtract gross (discountAmount this) in
    if negb (Money.equals (totalPrice this) expectedTotal)
    then Throw "订单项总价计算错误"
    else Ok tt.

(** The constructor: the identifier is the one given, or a generated one. *)
Definition new (this : t) : result t :=
  let* _ := validate this in Ok this.

(** [create]; [fresh] is the generated identifier, [discount] the optional
    argument whose default is [Money.zero] of the unit price's currency. *)
Definition create (fresh : string) (productId productName sku : string)
    (quantity : JS.number) (unitPrice : Money.t) (discount : option Money.t)
    (productSnapshot : ProductSnapshot) : result t :=
  let* discountAmount :=
    match discount with
    | Some d => Ok d
    | None => Money.zero (Money.getCurrency unitPrice)
    end in
  let* gross := Money.multiply unitPrice quantity in
  let* totalPrice := Money.subtract gross discountAmount in
  new (mk fresh productId (JS.trim productName) (JS.trim sku) quantity
          unitPrice totalPrice discountAmount productSnapshot).

Definition reconstitute (props : t) : result t := new props.

Definition getProductId (i : t) : string := productId i.
Definition getQuantity (i : t) : JS.number := quantity i.
Definition getUnitPrice (i : t) : Money.t := unitPrice i.
Definition getTotalPrice (i : t) : Money.t := totalPrice i.

Definition getDiscountAmount (i : t) : Money.t := discountAmount i.



Definition getSubtotal (this : t) : result Money.t :=
  Money.multiply (unitPrice this) (quantity this).


End OrderItem.

(** A [for ... of] loop whose body may throw. *)
Fixpoint foldM {A B : Type} (f : A -> B -> result A) (l : list B) (a : A) : result A :=
  match l with
  | [] => Ok a
  | x :: rest => let* a' := f a x in foldM f rest a'
  end.

(** [Array.prototype.reduce] of numbers from an initial value. *)
Definition reduce {B : Type} (f : JS.number -> B -> JS.number) (l : list B) (init : JS.number) :=
  fold_left f l init.

(** ** Methods that mutate their receiver *)

(** A method on a receiver of state [S]: the outcome, and the state the
    receiver is left in, also when the method throws. *)
Definition M (S A : Type) : Type := S -> result A * S.

Definition ret {S A : Type} (a : A) : M S A := fun s => (Ok a, s).
Definition throw {S A : Type} (e : Error) : M S A := fun s => (Throw e, s).
Definition get {S : Type} : M S S := fun s => (Ok s, s).
Definition modify {S : Type} (f : S -> S) : M S unit := fun s => (Ok tt, f s).

Definition bindM {S A B : Type} (m : M S A) (k : A -> M S B) : M S B :=
  fun s =>
    match m s with
    | (Ok a, s') => k a s'
    | (Throw e, s') => (Throw e, s')
    end.

Definition when {S : Type} (b : bool) (m : M S unit) : M S unit :=
  if b then m else ret tt.

(** A call that may throw and touches no state. *)
Definition lift {S A : Type} (r : result A) : M S A := fun s => (r, s).

(** [try { m } catch (error) { h error }] *)
Definition try_catch {S A : Type} (m : M S A) (h : Error -> M S A) : M S A :=
  fun s =>
    match m s with
    | (Ok a, s') => (Ok a, s')
    | (Throw e, s') => h e s'
    end.

Notation "x <- m ;; k" := (bindM m (fun x => k))
  (at level 100, m at next level, right associativity).
Notation "m ;; k" := (bindM m (fun _ => k))
  (at level 100, right associativity).

(** ** The Order aggregate *)

Module Order.

Record OrderMetadata := mkMetadata {
  couponCode : option string;
  promotionId : option string;
  channel : string;
  userAgent : option string;
  ipAddress : option string
}.

(** [Partial<OrderMetadata>] *)
Record PartialMetadata := mkPartial {
  p_couponCode : option string;
  p_promotionId : option string;
  p_channel : option string;
  p_userAgent : option string;
  p_ipAddress : option string
}.

Record OrderProps := mkProps {
  orderNumber : string;
  customerId : string;
  items : list OrderItem.t;
  shippingAddress : Address.t;
  billingAddress : Address.t;
  subtotal : Money.t;
  discountAmount : Money.t;
  shippingFee : Money.t;
  taxAmount : Money.t;
  totalAmount : Money.t;
  paymentMethod : PaymentMethod;
  status : OrderStatus.t;
  paymentStatus : PaymentStatus.t;
  shippingStatus : ShippingStatus.t;
  orderDate : Date;
  paidAt : option Date;
  shippedAt : option Date;
  deliveredAt : option Date;
  notes : option string;
  metadata : OrderMetadata
}.

(** The domain events of the order context, with their payloads. *)
Inductive DomainEvent :=
| OrderCreatedEvent (orderId orderNumber customerId : string) (totalAmount : Money.t)
    (items : list (string * JS.number * Money.t))
| OrderPaidEvent (orderId paymentId : string) (amount : Money.t) (paidAt : Date)
| OrderCancelledEvent (orderId reason : string) (cancelledAt : Date)
| OrderShippedEvent (orderId shipmentId trackingNumber carrier : string)
| OrderDeliveredEvent (orderId : string) (deliveredAt : Date).

(** An order: its identifier, its properties and the events of the
    aggregate root not yet committed. *)
Record t := mk {
  id : string;
  props : OrderProps;
  domainEvents : list DomainEvent
}.

Definition calculateSubtotalFromItems (items : list OrderItem.t) : result Money.t :=
  match items with
  | [] => Throw "订单项不能为空"
  | first :: _ =>
      let* zero := Money.zero (Money.getCurrency (OrderItem.getUnitPrice first)) in
      foldM (fun subtotal item => Money.add subtotal (OrderItem.getTotalPrice item))
            items zero
  end.

Definition calculateSubtotal (p : OrderProps) : result Money.t :=
  calculateSubtotalFromItems (items p).

Definition validate (p : OrderProps) : result unit :=
  if String.eqb (customerId p) "" then Throw "客户ID不能为空"
  else
    match items p with
    | [] => Throw "订单必须包含至少一个商品"
    | _ :: _ =>
        let* calculatedSubtotal := calculateSubtotal p in
        if negb (Money.equals (subtotal p) calculatedSubtotal)
        then Throw "订单小计计算错误"
        else
          let* afterDiscount := Money.subtract (subtotal p) (discountAmount p) in
          let* withShipping := Money.add afterDiscount (shippingFee p) in
          let* calculatedTotal := Money.add withShipping (taxAmount p) in
          if negb (Money.equals (totalAmount p) calculatedTotal)
          then Throw "订单总金额计算错误"
          else if OrderStatus.eqb (status p) OrderStatus.PAID
                  && negb (PaymentStatus.eqb (paymentStatus p) PaymentStatus.COMPLETED)
          then Throw "订单状态与支付状态不一致"
          else if OrderStatus.eqb (status p) OrderStatus.SHIPPED
                  && negb (ShippingStatus.eqb (shippingStatus p) ShippingStatus.SHIPPED)
          then Throw "订单状态与发货状态不一致"
          else Ok tt
    end.

(** The constructor; the aggregate root starts with no event. *)
Definition new (p : OrderProps) (id : string) : result t :=
  let* _ := validate p in Ok (mk id p []).

Definition addDomainEvent (e : DomainEvent) (this : t) : t :=
  mk (id this) (props this) (domainEvents this ++ [e]).

(** What [create] generates: the identifier, the order number and the clock. *)
Record Generated := mkGenerated {
  g_id : string;
  g_orderNumber : string;
  g_now : Date
}.

(** The default of an omitted amount: [Money.zero] of the first item's
    currency, a [TypeError] when there is no first item. *)
Definition defaultAmount (items : list OrderItem.t) (given : option Money.t) : result Money.t :=
  match given with
  | Some m => Ok m
  | None =>
      match items with
      | first :: _ => Money.zero (Money.getCurrency (OrderItem.getUnitPrice first))
      | [] => Throw "TypeError: Cannot read properties of undefined (reading 'getUnitPrice')"
      end
  end.

Definition create (g : Generated) (customerId : string) (items : list OrderItem.t)
    (shippingAddress billingAddress : Address.t) (paymentMethod : PaymentMethod)
    (shippingFee taxAmount discountAmount : option Money.t)
    (notes : option string) (metadata : PartialMetadata) : result t :=
  let* shippingFee := defaultAmount items shippingFee in
  let* taxAmount := defaultAmount items taxAmount in
  let* discountAmount := defaultAmount items discountAmount in
  match items with
  | [] => Throw "订单必须包含至少一个商品"
  | _ :: _ =>
      let* subtotal := calculateSubtotalFromItems items in
      let* afterDiscount := Money.subtract subtotal discountAmount in
      let* withShipping := Money.add afterDiscount shippingFee in
      let* totalAmount := Money.add withShipping taxAmount in
      let* order :=
        new (mkProps (g_orderNumber g) customerId items shippingAddress billingAddress
               subtotal discountAmount shippingFee taxAmount totalAmount paymentMethod
               OrderStatus.PENDING PaymentStatus.PENDING ShippingStatus.PENDING
               (g_now g) None None None notes
               (mkMetadata (p_couponCode metadata) (p_promotionId metadata)
                  (default "web" (p_channel metadata))
                  (p_userAgent metadata) (p_ipAddress metadata)))
            (g_id g) in
      Ok (addDomainEvent
            (OrderCreatedEvent (g_id g) (g_orderNumber g) customerId totalAmount
               (map (fun item => (OrderItem.getProductId item, OrderItem.getQuantity item,
                                  OrderItem.getUnitPrice item)) items))
            order)
  end.

Definition reconstitute (p : OrderProps) (id : string) : result t := new p id.

Definition getStatus (this : t) : OrderStatus.t := status (props this).
Definition getPaymentStatus (this : t) : PaymentStatus.t := paymentStatus (props this).
Definition getShippingStatus (this : t) : ShippingStatus.t := shippingStatus (props this).

(** Assignments to the fields the lifecycle methods write. *)
Definition set_status (v : OrderStatus.t) (p : OrderProps) : OrderProps :=
  mkProps (orderNumber p) (customerId p) (items p) (shippingAddress p) (billingAddress p)
    (subtotal p) (discountAmount p) (shippingFee p) (taxAmount p) (totalAmount p)
    (paymentMethod p) v (paymentStatus p) (shippingStatus p) (orderDate p)
    (paidAt p) (shippedAt p) (deliveredAt p) (notes p) (metadata p).

Definition set_paymentStatus (v : PaymentStatus.t) (p : OrderProps) : OrderProps :=
  mkProps (orderNumber p) (customerId p) (items p) (shippingAddress p) (billingAddress p)
    (subtotal p) (discountAmount p) (shippingFee p) (taxAmount p) (totalAmount p)
    (paymentMethod p) (status p) v (shippingStatus p) (orderDate p)
    (paidAt p) (shippedAt p) (deliveredAt p) (notes p) (metadata p).

Definition set_shippingStatus (v : ShippingStatus.t) (p : OrderProps) : OrderProps :=
  mkProps (orderNumber p) (customerId p) (items p) (shippingAddress p) (billingAddress p)
    (subtotal p) (discountAmount p) (shippingFee p) (taxAmount p) (totalAmount p)
    (paymentMethod p) (status p) (paymentStatus p) v (orderDate p)
    (paidAt p) (shippedAt p) (deliveredAt p) (notes p) (metadata p).

Definition set_paidAt (v : Date) (p : OrderProps) : OrderProps :=
  mkProps (orderNumber p) (customerId p) (items p) (shippingAddress p) (billingAddress p)
    (subtotal p) (discountAmount p) (shippingFee p) (taxAmount p) (totalAmount p)
    (paymentMethod p) (status p) (paymentStatus p) (shippingStatus p) (orderDate p)
    (Some v) (shippedAt p) (deliveredAt p) (notes p) (metadata p).

Definition set_shippedAt (v : Date) (p : OrderProps) : OrderProps :=
  mkProps (orderNumber p) (customerId p) (items p) (shippingAddress p) (billingAddress p)
    (subtotal p) (discountAmount p) (shippingFee p) (taxAmount p) (totalAmount p)
    (paymentMethod p) (status p) (paymentStatus p) (shippingStatus p) (orderDate p)
    (paidAt p) (Some v) (deliveredAt p) (notes p) (metadata p).

Definition set_deliveredAt (v : Date) (p : OrderProps) : OrderProps :=
  mkProps (orderNumber p) (customerId p) (items p) (shippingAddress p) (billingAddress p)
    (subtotal p) (discountAmount p) (shippingFee p) (taxAmount p) (totalAmount p)
    (paymentMethod p) (status p) (paymentStatus p) (shippingStatus p) (orderDate p)
    (paidAt p) (shippedAt p) (Some v) (notes p) (metadata p).

(** [this.props.f = v] *)
Definition assign (f : OrderProps -> OrderProps) : M t unit :=
  modify (fun this => mk (id this) (f (props this)) (domainEvents this)).

Definition emit (e : t -> DomainEvent) : M t unit :=
  modify (fun this => addDomainEvent (e this) this).

Definition is_status (s : OrderStatus.t) (this : t) : bool :=
  OrderStatus.eqb (status (props this)) s.

Definition is_paymentStatus (s : PaymentStatus.t) (this : t) : bool :=
  PaymentStatus.eqb (paymentStatus (props this)) s.

(** [now] is the value of [new Date()] in the call. *)
Definition pay (paymentId : string) (now : Date) : M t unit :=
  this <- get ;;
  when (negb (is_status OrderStatus.PENDING this)) (throw "只有待支付订单才能进行支付") ;;
  when (negb (is_paymentStatus PaymentStatus.PENDING this)) (throw "订单支付状态异常") ;;
  assign (set_status OrderStatus.PAID) ;;
  assign (set_paymentStatus PaymentStatus.COMPLETED) ;;
  assign (set_paidAt now) ;;
  emit (fun this => OrderPaidEvent (id this) paymentId (totalAmount (props this)) now).

Definition startProcessing : M t unit :=
  this <- get ;;
  when (negb (is_status OrderStatus.PAID this)) (throw "只有已支付订单才能开始处理") ;;
  assign (set_status OrderStatus.PROCESSING) ;;
  assign (set_shippingStatus ShippingStatus.PREPARING).

Definition ship (shipmentId trackingNumber carrier : string) (now : Date) : M t unit :=
  this <- get ;;
  when (negb (is_status OrderStatus.PROCESSING this)) (throw "只有处理中的订单才能发货") ;;
  assign (set_status OrderStatus.SHIPPED) ;;
  assign (set_shippingStatus ShippingStatus.SHIPPED) ;;
  assign (set_shippedAt now) ;;
  emit (fun this => OrderShippedEvent (id this) shipmentId trackingNumber carrier).

Definition deliver (now : Date) : M t unit :=
  this <- get ;;
  when (negb (is_status OrderStatus.SHIPPED this)) (throw "只有已发货订单才能确认送达") ;;
  assign (set_status OrderStatus.DELIVERED) ;;
  assign (set_shippingStatus ShippingStatus.DELIVERED) ;;
  assign (set_deliveredAt now) ;;
  emit (fun this => OrderDeliveredEvent (id this) now).

Definition complete : M t unit :=
  this <- get ;;
  when (negb (is_status OrderStatus.DELIVERED this)) (throw "只有已送达订单才能完成") ;;
  assign (set_status OrderStatus.COMPLETED).

Definition cancel (reason : string) (now : Date) : M t unit :=
  this <- get ;;
  when (is_status OrderStatus.SHIPPED this || is_status OrderStatus.DELIVERED this
        || is_status OrderStatus.COMPLETED this)
       (throw "已发货的订单不能取消") ;;
  when (is_status OrderStatus.PAID this || is_status OrderStatus.PROCESSING this)
       (assign (set_paymentStatus PaymentStatus.REFUNDED)) ;;
  assign (set_status OrderStatus.CANCELLED) ;;
  emit (fun this => OrderCancelledEvent (id this) reason now).

Definition refund : M t unit :=
  this <- get ;;
  when (negb (is_paymentStatus PaymentStatus.COMPLETED this))
       (throw "只有已完成支付的订单才能退款") ;;
  assign (set_status OrderStatus.REFUNDED) ;;
  assign (set_paymentStatus PaymentStatus.REFUNDED).

Definition canCancel (this : t) : bool :=
  negb (is_status OrderStatus.SHIPPED this || is_status OrderStatus.DELIVERED this
        || is_status OrderStatus.COMPLETED this || is_status OrderStatus.CANCELLED this).

Definition canRefund (this : t) : bool := is_paymentStatus PaymentStatus.COMPLETED this.

Definition isPaid (this : t) : bool := is_paymentStatus PaymentStatus.COMPLETED this.

Definition getTotalItemCount (this : t) : JS.number :=
  reduce (fun total item => (total + OrderItem.getQuantity item)%float)
         (items (props this)) 0%float.

Definition hasItem (this : t) (productId : string) : bool :=
  existsb (fun item => String.eqb (OrderItem.getProductId item) productId)
          (items (props this)).

Definition getItem (this : t) (productId : string) : option OrderItem.t :=
  find (fun item => String.eqb (OrderItem.getProductId item) productId)
       (items (props this)).

End Order.

(** ** OrderPricingService *)

Module OrderPricingService.

Record OrderPricing := mkPricing {
  subtotal : Money.t;
  discountAmount : Money.t;
  shippingFee : Money.t;
  taxAmount : Money.t;
  totalAmount : Money.t
}.

Inductive DiscountType := PERCENTAGE | FIXED_AMOUNT | FREE_SHIPPING.

Record DiscountRule := mkDiscountRule {
  type : DiscountType;
  value : JS.number;
  minOrderAmount : option Money.t;
  maxDiscountAmount : option Money.t
}.

Record ShippingRule := mkShippingRule {
  region : string;
  baseRate : Money.t;
  freeShippingThreshold : option Money.t;
  weightMultiplier : option JS.number
}.

Record TaxRule := mkTaxRule {
  tax_region : string;
  rate : JS.number;
  taxableCategories : option (list string)
}.

(** The rule of a coupon code.  A code that is no key of the table has no
    rule: [null], or for a key inherited from [Object.prototype] an object
    without [type], on which [applyDiscountRule] answers zero as for [null]. *)
Definition getDiscountRuleByCoupon (couponCode : string) : result (option DiscountRule) :=
  let* save10_min := Money.new 100%float CNY in
  let* save10_max := Money.new 50%float CNY in
  let* welcome20_min := Money.new 200%float CNY in
  let* freeship_min := Money.new 150%float CNY in
  if String.eqb couponCode "SAVE10" then
    Ok (Some (mkDiscountRule PERCENTAGE 10%float (Some save10_min) (Some save10_max)))
  else if String.eqb couponCode "WELCOME20" then
    Ok (Some (mkDiscountRule FIXED_AMOUNT 20%float (Some welcome20_min) None))
  else if String.eqb couponCode "FREESHIP" then
    Ok (Some (mkDiscountRule FREE_SHIPPING 0%float (Some freeship_min) None))
  else Ok None.

Definition includes (l : list string) (s : string) : bool :=
  existsb (String.eqb s) l.

Definition getShippingRuleByAddress (address : Address.t) : result (option ShippingRule) :=
  let province := Address.getProvince address in
  if includes ["北京"; "上海"; "广州"; "深圳"] province then
    let* base := Money.new 8%float CNY in
    let* threshold := Money.new 199%float CNY in
    Ok (Some (mkShippingRule "一线城市" base (Some threshold) None))
  else
    let* base := Money.new 12%float CNY in
    let* threshold := Money.new 299%float CNY in
    Ok (Some (mkShippingRule "其他地区" base (Some threshold) (Some 2%float))).

Definition getTaxRuleByAddress (address : Address.t) : option TaxRule := None.

Definition calculateSubtotal (items : list OrderItem.t) : result Money.t :=
  match items with
  | [] => Throw "订单项不能为空"
  | first :: _ =>
      let* zero := Money.zero (Money.getCurrency (OrderItem.getUnitPrice first)) in
      foldM (fun subtotal item => Money.add subtotal (OrderItem.getTotalPrice item))
            items zero
  end.

(** What [applyDiscountRule] does with the discount of a PERCENTAGE or
    FIXED_AMOUNT rule after its [switch]: cap it by the maximum of the
    rule, then by the subtotal. *)
Definition capDiscount (subtotal : Money.t) (rule : DiscountRule) (discountAmount : Money.t)
    : result Money.t :=
  let* discountAmount :=
    match maxDiscountAmount rule with
    | Some maxDiscount =>
        let* over := Money.isGreaterThan discountAmount maxDiscount in
        Ok (if over then maxDiscount else discountAmount)
    | None => Ok discountAmount
    end in
  let* over := Money.isGreaterThan discountAmount subtotal in
  Ok (if over then subtotal else discountAmount).

Definition applyDiscountRule (items : list OrderItem.t) (subtotal : Money.t)
    (rule : DiscountRule) : result Money.t :=
  let* below :=
    match minOrderAmount rule with
    | Some minOrder => Money.isLessThan subtotal minOrder
    | None => Ok false
    end in
  if below then Money.zero (Money.getCurrency subtotal)
  else
    match type rule with
    | PERCENTAGE =>
        let* discountAmount := Money.multiply subtotal (value rule / 100)%float in
        capDiscount subtotal rule discountAmount
    | FIXED_AMOUNT =>
        let* discountAmount := Money.new (value rule) (Money.getCurrency subtotal) in
        capDiscount subtotal rule discountAmount
    | FREE_SHIPPING => Money.zero (Money.getCurrency subtotal)
    end.

(** [couponCode] is falsy when omitted or the empty string. *)
Definition calculateDiscount (items : list OrderItem.t) (subtotal : Money.t)
    (couponCode : option string) : result Money.t :=
  match couponCode with
  | None => Money.zero (Money.getCurrency subtotal)
  | Some code =>
      if String.eqb code "" then Money.zero (Money.getCurrency subtotal)
      else
        let* discountRule := getDiscountRuleByCoupon code in
        match discountRule with
        | None => Money.zero (Money.getCurrency subtotal)
        | Some rule => applyDiscountRule items subtotal rule
        end
  end.

Definition calculateTotalWeight (items : list OrderItem.t) : JS.number :=
  reduce (fun total item => (total + OrderItem.getQuantity item)%float) items 0%float.

(** A number is truthy unless it is zero or NaN. *)
Definition truthy (x : JS.number) : bool :=
  negb (JS.strict_eq x 0%float || JS.isNaN x).

Definition calculateShippingFee (items : list OrderItem.t) (shippingAddress : Address.t)
    (subtotal discountAmount : Money.t) : result Money.t :=
  let* shippingRule := getShippingRuleByAddress shippingAddress in
  match shippingRule with
  | None => Money.new 10%float (Money.getCurrency subtotal)
  | Some shippingRule =>
      let* orderAmountAfterDiscount := Money.subtract subtotal discountAmount in
      let* free :=
        match freeShippingThreshold shippingRule with
        | Some threshold => Money.isGreaterThan orderAmountAfterDiscount threshold
        | None => Ok false
        end in
      if free then Money.zero (Money.getCurrency subtotal)
      else
        let shippingFee := baseRate shippingRule in
        match weightMultiplier shippingRule with
        | Some multiplier =>
            if truthy multiplier then
              let totalWeight := calculateTotalWeight items in
              let* weightCharge :=
                Money.new (totalWeight * multiplier)%float (Money.getCurrency subtotal) in
              Money.add shippingFee weightCharge
            else Ok shippingFee
        | None => Ok shippingFee
        end
  end.

Definition calculateTax (items : list OrderItem.t) (shippingAddress : Address.t)
    (subtotal discountAmount : Money.t) : result Money.t :=
  match getTaxRuleByAddress shippingAddress with
  | None => Money.zero (Money.getCurrency subtotal)
  | Some taxRule =>
      let* taxableAmount := Money.subtract subtotal discountAmount in
      Money.multiply taxableAmount (rate taxRule)
  end.

(** The [currency] argument of the source is never read and is left out. *)
Definition calculateOrderPricing (items : list OrderItem.t) (shippingAddress : Address.t)
    (couponCode : option string) : result OrderPricing :=
  match items with
  | [] => Throw "订单项不能为空"
  | _ :: _ =>
      let* subtotal := calculateSubtotal items in
      let* discountAmount := calculateDiscount items subtotal couponCode in
      let* shippingFee := calculateShippingFee items shippingAddress subtotal discountAmount in
      let* taxAmount := calculateTax items shippingAddress subtotal discountAmount in
      let* afterDiscount := Money.subtract subtotal discountAmount in
      let* withShipping := Money.add afterDiscount shippingFee in
      let* totalAmount := Money.add withShipping taxAmount in
      Ok (mkPricing subtotal discountAmount shippingFee taxAmount totalAmount)
  end.

Record Validation := mkValidation {
  isValid : bool;
  errors : list string
}.

(** [errors.push(msg)] when [b]. *)
Definition push_if (b : bool) (msg : string) (errors : list string) : list string :=
  if b then errors ++ [msg] else errors.

Definition validateOrderPricing (items : list OrderItem.t) (pricing : OrderPricing)
    : result Validation :=
  let errors := [] in
  let* calculatedSubtotal := calculateSubtotal items in
  let errors :=
    push_if (negb (Money.equals (subtotal pricing) calculatedSubtotal))
      ("小计计算错误，期望: " ++ JS.toString (Money.getAmount calculatedSubtotal)
       ++ ", 实际: " ++ JS.toString (Money.getAmount (subtotal pricing))) errors in
  let* afterDiscount := Money.subtract (subtotal pricing) (discountAmount pricing) in
  let* withShipping := Money.add afterDiscount (shippingFee pricing) in
  let* calculatedTotal := Money.add withShipping (taxAmount pricing) in
  let errors :=
    push_if (negb (Money.equals (totalAmount pricing) calculatedTotal))
      ("总金额计算错误，期望: " ++ JS.toString (Money.getAmount calculatedTotal)
       ++ ", 实际: " ++ JS.toString (Money.getAmount (totalAmount pricing))) errors in
  let* over := Money.isGreaterThan (discountAmount pricing) (subtotal pricing) in
  let errors := push_if over "折扣金额不能超过订单小计" errors in
  let errors :=
    push_if (JS.lt (Money.getAmount (subtotal pricing)) 0%float) "订单小计不能为负数" errors in
  let errors :=
    push_if (JS.lt (Money.getAmount (discountAmount pricing)) 0%float) "折扣金额不能为负数" errors in
  let errors :=
    push_if (JS.lt (Money.getAmount (shippingFee pricing)) 0%float) "运费不能为负数" errors in
  let errors :=
    push_if (JS.lt (Money.getAmount (taxAmount pricing)) 0%float) "税费不能为负数" errors in
  Ok (mkValidation (Nat.eqb (length errors) 0) errors).




End OrderPricingService.

(** ** Inventory *)

Module Inventory.

Record t := mk {
  quantity : JS.number;
  reservedQuantity : JS.number;
  minStockLevel : JS.number
}.

Definition validate (this : t) : result unit :=
  if JS.lt (quantity this) 0%float then Throw "库存数量不能为负数"
  else if JS.lt (reservedQuantity this) 0%float then Throw "预留库存不能为负数"
  else if JS.lt (minStockLevel this) 0%float then Throw "最小库存级别不能为负数"
  else if JS.gt (reservedQuantity this) (quantity this) then Throw "预留库存不能超过总库存"
  else Ok tt.

(** The constructor; an omitted [reservedQuantity] or [minStockLevel] is 0. *)
Definition new (quantity reservedQuantity minStockLevel : JS.number) : result t :=
  let this := mk quantity reservedQuantity minStockLevel in
  let* _ := validate this in Ok this.

Definition getQuantity (this : t) : JS.number := quantity this.
Definition getReservedQuantity (this : t) : JS.number := reservedQuantity this.

Definition getAvailableQuantity (this : t) : JS.number :=
  (quantity this - reservedQuantity this)%float.

(** Modelled from the spec: [getAvailable], which [InventoryService] calls
    and the [Inventory] class does not declare; the available count of the
    spec, the total less the reserved, as [getAvailableQuantity] gives it. *)
Definition getAvailable (this : t) : JS.number := getAvailableQuantity this.

Definition isInStock (this : t) : bool := JS.gt (getAvailableQuantity this) 0%float.

Definition isLowStock (this : t) : bool := JS.le (quantity this) (minStockLevel this).

Definition canReserve (this : t) (q : JS.number) : bool :=
  JS.ge (getAvailableQuantity this) q.

Definition reserve (this : t) (q : JS.number) : result t :=
  if JS.le q 0%float then Throw "预留数量必须大于0"
  else if negb (canReserve this q) then Throw "库存不足，无法预留"
  else new (quantity this) (reservedQuantity this + q)%float (minStockLevel this).

Definition releaseReservation (this : t) (q : JS.number) : result t :=
  if JS.le q 0%float then Throw "释放数量必须大于0"
  else if JS.gt q (reservedQuantity this) then Throw "释放数量不能超过预留数量"
  else new (quantity this) (reservedQuantity this - q)%float (minStockLevel this).

Definition deduct (this : t) (q : JS.number) : result t :=
  if JS.le q 0%float then Throw "扣减数量必须大于0"
  else if JS.gt q (reservedQuantity this) then Throw "扣减数量不能超过预留数量"
  else new (quantity this - q)%float (reservedQuantity this - q)%float (minStockLevel this).

Definition addStock (this : t) (q : JS.number) : result t :=
  if JS.le q 0%float then Throw "增加库存数量必须大于0"
  else new (quantity this + q)%float (reservedQuantity this) (minStockLevel this).

Definition updateMinStockLevel (this : t) (m : JS.number) : result t :=
  if JS.lt m 0%float then Throw "最小库存级别不能为负数"
  else new (quantity this) (reservedQuantity this) m.

Definition zero : result t := new 0%float 0%float 0%float.

End Inventory.

(** ** The Product aggregate: status and inventory *)

Module ProductStatus.

Inductive t := DRAFT | ACTIVE | INACTIVE | OUT_OF_STOCK | DISCONTINUED.

(** The string each member of the enumeration stands for. *)
Definition value (s : t) : string :=
  match s with
  | DRAFT => "draft"
  | ACTIVE => "active"
  | INACTIVE => "inactive"
  | OUT_OF_STOCK => "out_of_stock"
  | DISCONTINUED => "discontinued"
  end.

Definition eqb (a b : t) : bool :=
  match a, b with
  | DRAFT, DRAFT | ACTIVE, ACTIVE | INACTIVE, INACTIVE
  | OUT_OF_STOCK, OUT_OF_STOCK | DISCONTINUED, DISCONTINUED => true
  | _, _ => false
  end.

End ProductStatus.

Module Product.

Inductive DomainEvent :=
| ProductStatusChangedEvent (productId : string) (oldStatus newStatus : ProductStatus.t)
| InventoryUpdatedEvent (productId : string) (oldQuantity newQuantity : JS.number)
    (reason : string).

(** The properties the inventory operations read and write; name, price,
    SKU, category and images play no part in them. *)
Record t := mk {
  id : string;
  name : string;
  inventory : Inventory.t;
  status : ProductStatus.t;
  updatedAt : Date;
  domainEvents : list DomainEvent
}.

Definition getInventory (this : t) : Inventory.t := inventory this.
Definition getStatus (this : t) : ProductStatus.t := status this.

Definition set_inventory (v : Inventory.t) (this : t) : t :=
  mk (id this) (name this) v (status this) (updatedAt this) (domainEvents this).
Definition set_status (v : ProductStatus.t) (this : t) : t :=
  mk (id this) (name this) (inventory this) v (updatedAt this) (domainEvents this).
Definition set_updatedAt (v : Date) (this : t) : t :=
  mk (id this) (name this) (inventory this) (status this) v (domainEvents this).
Definition addDomainEvent (e : DomainEvent) (this : t) : t :=
  mk (id this) (name this) (inventory this) (status this) (updatedAt this)
     (domainEvents this ++ [e]).

Definition updateStatus (newStatus : ProductStatus.t) (now : Date) : M t unit :=
  this <- get ;;
  if ProductStatus.eqb (status this) newStatus then ret tt
  else
    let oldStatus := status this in
    when (ProductStatus.eqb newStatus ProductStatus.ACTIVE
          && negb (Inventory.isInStock (inventory this)))
         (throw "没有库存的商品不能激活") ;;
    modify (set_status newStatus) ;;
    modify (set_updatedAt now) ;;
    modify (addDomainEvent (ProductStatusChangedEvent (id this) oldStatus newStatus)).

Definition activate (now : Date) : M t unit := updateStatus ProductStatus.ACTIVE now.
Definition markAsOutOfStock (now : Date) : M t unit :=
  updateStatus ProductStatus.OUT_OF_STOCK now.

Definition reserveInventory (q : JS.number) (now : Date) : M t unit :=
  this <- get ;;
  when (negb (ProductStatus.eqb (status this) ProductStatus.ACTIVE))
       (throw "只有激活状态的商品才能预留库存") ;;
  let oldQuantity := Inventory.getQuantity (inventory this) in
  inv <- lift (Inventory.reserve (inventory this) q) ;;
  modify (set_inventory inv) ;;
  modify (set_updatedAt now) ;;
  when (negb (Inventory.isInStock inv)) (markAsOutOfStock now) ;;
  modify (addDomainEvent
            (InventoryUpdatedEvent (id this) oldQuantity (Inventory.getQuantity inv)
               ("预留库存 " ++ JS.toString q ++ " 件"))).

Definition releaseInventory (q : JS.number) (now : Date) : M t unit :=
  this <- get ;;
  let oldQuantity := Inventory.getQuantity (inventory this) in
  inv <- lift (Inventory.releaseReservation (inventory this) q) ;;
  modify (set_inventory inv) ;;
  modify (set_updatedAt now) ;;
  when (ProductStatus.eqb (status this) ProductStatus.OUT_OF_STOCK
        && Inventory.isInStock inv)
       (activate now) ;;
  modify (addDomainEvent
            (InventoryUpdatedEvent (id this) oldQuantity (Inventory.getQuantity inv)
               ("释放预留库存 " ++ JS.toString q ++ " 件"))).

Definition deductInventory (q : JS.number) (now : Date) : M t unit :=
  this <- get ;;
  let oldQuantity := Inventory.getQuantity (inventory this) in
  inv <- lift (Inventory.deduct (inventory this) q) ;;
  modify (set_inventory inv) ;;
  modify (set_updatedAt now) ;;
  when (negb (Inventory.isInStock inv)) (markAsOutOfStock now) ;;
  modify (addDomainEvent
            (InventoryUpdatedEvent (id this) oldQuantity (Inventory.getQuantity inv)
               ("扣减库存 " ++ JS.toString q ++ " 件"))).

Definition addStock (q : JS.number) (now : Date) : M t unit :=
  this <- get ;;
  let oldQuantity := Inventory.getQuantity (inventory this) in
  inv <- lift (Inventory.addStock (inventory this) q) ;;
  modify (set_inventory inv) ;;
  modify (set_updatedAt now) ;;
  when (ProductStatus.eqb (status this) ProductStatus.OUT_OF_STOCK
        && Inventory.isInStock inv)
       (activate now) ;;
  modify (addDomainEvent
            (InventoryUpdatedEvent (id this) oldQuantity (Inventory.getQuantity inv)
               ("增加库存 " ++ JS.toString q ++ " 件"))).

End Product.

(** ** InventoryService *)

Module InventoryService.

Record InventoryReservationItem := mkItem {
  productId : string;
  productName : string;
  requestedQuantity : JS.number
}.

Record InvalidItem := mkInvalid {
  i_productId : string;
  i_productName : string;
  i_requestedQuantity : JS.number;
  i_availableQuantity : JS.number;
  reason : string
}.

Record InventoryValidationResult := mkResult {
  isValid : bool;
  invalidItems : list InvalidItem
}.

Record ReleaseItem := mkRelease {
  r_productId : string;
  quantity : JS.number
}.

(** The product repository: the stored products by identifier.  [findById]
    answers a copy of the stored product, [save] stores the one given. *)
Abbreviation Store := (gmap string Product.t).

Definition findById (id : string) : M Store (option Product.t) :=
  fun st => (Ok (st !! id), st).

Definition save (p : Product.t) : M Store unit :=
  modify (fun st : Store => <[Product.id p := p]> st).

(** One turn of the validation loop: the failure recorded for [item], if any. *)
Definition validateItem (item : InventoryReservationItem) (product : option Product.t)
    : list InvalidItem :=
  match product with
  | None =>
      [mkInvalid (productId item) (productName item) (requestedQuantity item) 0%float
         "商品不存在"]
  | Some product =>
      if negb (String.eqb (ProductStatus.value (Product.getStatus product)) "ACTIVE") then
        [mkInvalid (productId item) (productName item) (requestedQuantity item) 0%float
           "商品已下架"]
      else
        let availableStock := Inventory.getAvailable (Product.getInventory product) in
        if JS.lt availableStock (requestedQuantity item) then
          [mkInvalid (productId item) (productName item) (requestedQuantity item)
             availableStock
             ("库存不足，可用库存：" ++ JS.toString availableStock ++ "，需要："
              ++ JS.toString (requestedQuantity item))]
        else []
  end.

Fixpoint validateLoop (items : list InventoryReservationItem) (invalidItems : list InvalidItem)
    : M Store (list InvalidItem) :=
  match items with
  | [] => ret invalidItems
  | item :: rest =>
      product <- findById (productId item) ;;
      validateLoop rest (invalidItems ++ validateItem item product)
  end.

Definition validateInventoryAvailability (items : list InventoryReservationItem)
    : M Store InventoryValidationResult :=
  invalidItems <- validateLoop items [] ;;
  ret (mkResult (Nat.eqb (length invalidItems) 0) invalidItems).

Fixpoint loadProducts (items : list InventoryReservationItem) (products : list Product.t)
    : M Store (list Product.t) :=
  match items with
  | [] => ret products
  | item :: rest =>
      product <- findById (productId item) ;;
      match product with
      | None => throw ("商品 " ++ productName item ++ " 不存在")
      | Some product => loadProducts rest (products ++ [product])
      end
  end.

(** [products[i].reserveInventory(items[i].requestedQuantity)] for every
    [i]; the loaded products are as many as the items. *)
Fixpoint reserveEach (products : list Product.t) (items : list InventoryReservationItem)
    (now : Date) : result (list Product.t) :=
  match products, items with
  | product :: products', item :: items' =>
      match Product.reserveInventory (requestedQuantity item) now product with
      | (Ok _, product') =>
          let* rest := reserveEach products' items' now in Ok (product' :: rest)
      | (Throw e, _) => Throw e
      end
  | _, _ => Ok []
  end.

Fixpoint saveAll (products : list Product.t) : M Store unit :=
  match products with
  | [] => ret tt
  | product :: rest => save product ;; saveAll rest
  end.

Definition reserveInventoryBatch (items : list InventoryReservationItem) (now : Date)
    : M Store (list Product.t) :=
  validationResult <- validateInventoryAvailability items ;;
  when (negb (isValid validationResult))
       (let errorMessages :=
          map (fun item => i_productName item ++ ": " ++ reason item)
              (invalidItems validationResult) in
        throw ("库存验证失败：" ++ String "010" (JS.join (String "010" "") errorMessages))) ;;
  products <- loadProducts items [] ;;
  try_catch
    (reserved <- lift (reserveEach products items now) ;;
     saveAll reserved ;;
     ret reserved)
    (fun error => throw ("库存预留失败：" ++ error)).

Fixpoint releaseReservedInventoryBatch (items : list ReleaseItem) (now : Date) : M Store unit :=
  match items with
  | [] => ret tt
  | item :: rest =>
      product <- findById (r_productId item) ;;
      match product with
      | Some product =>
          match Product.releaseInventory (quantity item) now product with
          | (Ok _, product') => save product'
          | (Throw e, _) => throw e
          end
      | None => ret tt
      end ;;
      releaseReservedInventoryBatch rest now
  end.

Fixpoint deductInventoryBatch (items : list ReleaseItem) (now : Date) : M Store unit :=
  match items with
  | [] => ret tt
  | item :: rest =>
      product <- findById (r_productId item) ;;
      match product with
      | Some product =>
          match Product.deductInventory (quantity item) now product with
          | (Ok _, product') => save product'
          | (Throw e, _) => throw e
          end
      | None => ret tt
      end ;;
      deductInventoryBatch rest now
  end.

Definition canDeleteProduct (productId : string) : M Store bool :=
  product <- findById productId ;;
  match product with
  | None => ret false
  | Some product =>
      if JS.gt (Inventory.getReservedQuantity (Product.getInventory product)) 0%float
      then ret false
      else ret true
  end.

Record Consistency := mkConsistency {
  isConsistent : bool;
  issues : list string
}.

Definition push_issue (b : bool) (msg : string) (issues : list string) : list string :=
  if b then (issues ++ [msg])%list else issues.

Definition validateInventoryConsistency (productId : string) : M Store Consistency :=
  product <- findById productId ;;
  match product with
  | None => ret (mkConsistency false ["商品不存在"])
  | Some product =>
      let issues := [] in
      let inventory := Product.getInventory product in
      let issues :=
        push_issue (JS.gt (Inventory.getReservedQuantity inventory)
                          (Inventory.getQuantity inventory))
          "预留库存超过总库存" issues in
      let issues :=
        push_issue (JS.lt (Inventory.getQuantity inventory) 0%float)
          "总库存不能为负数" issues in
      let issues :=
        push_issue (JS.lt (Inventory.getReservedQuantity inventory) 0%float)
          "预留库存不能为负数" issues in
      ret (mkConsistency (Nat.eqb (length issues) 0) issues)
  end.

End InventoryService.

(** ** CreateOrderCommand: the checkout *)

Module CreateOrderCommand.

Record AddressData := mkAddressData {
  country : string;
  province : string;
  city : string;
  district : string;
  street : string;
  zipCode : option string;
  contactName : string;
  contactPhone : string
}.

Record CreateOrderRequest := mkRequest {
  userId : string;
  cartId : option string;
  shippingAddress : AddressData;
  billingAddress : option AddressData;
  paymentMethod : PaymentMethod;
  couponCode : option string;
  notes : option string;
  currency : option Currency
}.

Record CreateOrderResponse := mkResponse {
  orderId : string;
  orderNumber : string;
  totalAmount : JS.number * Currency;
  subtotal : JS.number * Currency;
  discountAmount : JS.number * Currency;
  shippingFee : JS.number * Currency;
  taxAmount : JS.number * Currency
}.

(** The collaborators injected into the command, and the classes of the
    cart and product contexts it calls, at their interface: each is an
    operation on the state [W] of the world outside the command that
    returns or throws; [console.error] only writes.  [Cart], [CartItem] and
    [Product] are the objects of those contexts; [generated] is what
    [Order.create] generates, and [cart_publish] publishes the events of
    the cart and marks them committed. *)
Record Collaborators (W Cart CartItem Product : Type) := mkCollaborators {
  UserId_fromString : string -> result string;
  CartId_fromString : string -> result string;
  ProductId_fromString : CartItem -> result string;
  cartItem_getProductName : CartItem -> string;
  cartItem_getQuantityValue : CartItem -> JS.number;
  cart_isEmpty : Cart -> bool;
  cart_getItems : Cart -> list CartItem;
  cart_clear : Cart -> Cart;
  cart_publish : Cart -> M W Cart;
  cartRepository_findById : string -> M W (option Cart);
  cartRepository_findByUserId : string -> M W (option Cart);
  cartRepository_save : Cart -> M W unit;
  orderRepository_save : Order.t -> M W unit;
  eventBus_publishAll : list Order.DomainEvent -> M W unit;
  inventoryService_reserveInventoryBatch :
    list InventoryService.InventoryReservationItem -> M W (list Product);
  inventoryService_releaseReservedInventoryBatch :
    list InventoryService.ReleaseItem -> M W unit;
  orderPricingService_calculateOrderPricing :
    list OrderItem.t -> Address.t -> option string -> result OrderPricingService.OrderPricing;
  createOrderItems : list CartItem -> list Product -> M W (list OrderItem.t);
  createAddress : AddressData -> result Address.t;
  generated : M W Order.Generated;
  console_error : string -> Error -> W -> W
}.

Arguments UserId_fromString {W Cart CartItem Product}.
Arguments CartId_fromString {W Cart CartItem Product}.
Arguments ProductId_fromString {W Cart CartItem Product}.
Arguments cartItem_getProductName {W Cart CartItem Product}.
Arguments cartItem_getQuantityValue {W Cart CartItem Product}.
Arguments cart_isEmpty {W Cart CartItem Product}.
Arguments cart_getItems {W Cart CartItem Product}.
Arguments cart_clear {W Cart CartItem Product}.
Arguments cart_publish {W Cart CartItem Product}.
Arguments cartRepository_findById {W Cart CartItem Product}.
Arguments cartRepository_findByUserId {W Cart CartItem Product}.
Arguments cartRepository_save {W Cart CartItem Product}.
Arguments orderRepository_save {W Cart CartItem Product}.
Arguments eventBus_publishAll {W Cart CartItem Product}.
Arguments inventoryService_reserveInventoryBatch {W Cart CartItem Product}.
Arguments inventoryService_releaseReservedInventoryBatch {W Cart CartItem Product}.
Arguments orderPricingService_calculateOrderPricing {W Cart CartItem Product}.
Arguments createOrderItems {W Cart CartItem Product}.
Arguments createAddress {W Cart CartItem Product}.
Arguments generated {W Cart CartItem Product}.
Arguments console_error {W Cart CartItem Product}.

Section Checkout.

Context {W Cart CartItem Product : Type}.
Variable deps : Collaborators W Cart CartItem Product.

Definition getCart (cartId : option string) (userId : string) : M W Cart :=
  match cartId with
  | Some cartId =>
      cartIdValue <- lift (CartId_fromString deps cartId) ;;
      cart <- cartRepository_findById deps cartIdValue ;;
      match cart with
      | None => throw "购物车不存在"
      | Some cart => ret cart
      end
  | None =>
      cart <- cartRepository_findByUserId deps userId ;;
      match cart with
      | None => throw "购物车不存在"
      | Some cart => ret cart
      end
  end.

(** [cartItems.map(cartItem => ({ productId, productName, requestedQuantity }))] *)
Fixpoint inventoryItemsOf (cartItems : list CartItem)
    : result (list InventoryService.InventoryReservationItem) :=
  match cartItems with
  | [] => Ok []
  | cartItem :: rest =>
      let* productId := ProductId_fromString deps cartItem in
      let item :=
        InventoryService.mkItem productId
          (cartItem_getProductName deps cartItem)
          (cartItem_getQuantityValue deps cartItem) in
      let* items := inventoryItemsOf rest in
      Ok (item :: items)
  end.

Definition releaseReservedInventory
    (inventoryItems : list InventoryService.InventoryReservationItem) : M W unit :=
  try_catch
    (let releaseItems :=
       map (fun item =>
              InventoryService.mkRelease (InventoryService.productId item)
                (InventoryService.requestedQuantity item))
           inventoryItems in
     inventoryService_releaseReservedInventoryBatch deps releaseItems)
    (fun error => modify (console_error deps "释放库存失败:" error)).

Definition publishEvents (order : Order.t) (cart : Cart) : M W (Order.t * Cart) :=
  eventBus_publishAll deps (Order.domainEvents order) ;;
  let order := Order.mk (Order.id order) (Order.props order) [] in
  cart <- cart_publish deps cart ;;
  ret (order, cart).

Definition json (m : Money.t) : JS.number * Currency :=
  (Money.getAmount m, Money.getCurrency m).

(** The steps of [execute] inside its [try] block. *)
Definition placeOrder (request : CreateOrderRequest) (cart : Cart)
    (cartItems : list CartItem) (reservedProducts : list Product)
    : M W CreateOrderResponse :=
  orderItems <- createOrderItems deps cartItems reservedProducts ;;
  shippingAddress <- lift (createAddress deps (shippingAddress request)) ;;
  billingAddress <-
    match billingAddress request with
    | Some b => lift (createAddress deps b)
    | None => ret shippingAddress
    end ;;
  pricing <- lift (orderPricingService_calculateOrderPricing deps
                     orderItems shippingAddress (couponCode request)) ;;
  g <- generated deps ;;
  order <- lift (Order.create g (userId request) orderItems shippingAddress billingAddress
                   (paymentMethod request)
                   (Some (OrderPricingService.shippingFee pricing))
                   (Some (OrderPricingService.taxAmount pricing))
                   (Some (OrderPricingService.discountAmount pricing))
                   (notes request)
                   (Order.mkPartial None None None None None)) ;;
  orderRepository_save deps order ;;
  let cart := cart_clear deps cart in
  cartRepository_save deps cart ;;
  published <- publishEvents order cart ;;
  ret (mkResponse (Order.id order) (Order.orderNumber (Order.props order))
         (json (OrderPricingService.totalAmount pricing))
         (json (OrderPricingService.subtotal pricing))
         (json (OrderPricingService.discountAmount pricing))
         (json (OrderPricingService.shippingFee pricing))
         (json (OrderPricingService.taxAmount pricing))).

Definition execute (request : CreateOrderRequest) : M W CreateOrderResponse :=
  userId <- lift (UserId_fromString deps (userId request)) ;;
  cart <- getCart (cartId request) userId ;;
  when (cart_isEmpty deps cart) (throw "购物车为空，无法创建订单") ;;
  let cartItems := cart_getItems deps cart in
  inventoryItems <- lift (inventoryItemsOf cartItems) ;;
  reservedProducts <-
    inventoryService_reserveInventoryBatch deps inventoryItems ;;
  try_catch
    (placeOrder request cart cartItems reservedProducts)
    (fun error =>
       releaseReservedInventory inventoryItems ;;
       throw error).

End Checkout.

End CreateOrderCommand.

(** ** Properties of the order aggregate, as the specification words them *)

Module OrderSpec.

(** The sum of the items' total prices. *)
Definition sumTotalPrice (items : list OrderItem.t) : JS.number :=
  fold_left (fun acc item => (acc + Money.amount (OrderItem.totalPrice item))%float)
            items 0%float.

(** The aggregate invariant of an order's properties. *)
Definition invariant (p : Order.OrderProps) : Prop :=
  JS.strict_eq (Money.amount (Order.subtotal p)) (sumTotalPrice (Order.items p)) = true /\
  JS.strict_eq (Money.amount (Order.totalAmount p))
    (Money.amount (Order.subtotal p) - Money.amount (Order.discountAmount p)
     + Money.amount (Order.shippingFee p) + Money.amount (Order.taxAmount p))%float = true /\
  (Order.status p = OrderStatus.PAID -> Order.paymentStatus p = PaymentStatus.COMPLETED) /\
  (Order.status p = OrderStatus.SHIPPED -> Order.shippingStatus p = ShippingStatus.SHIPPED).

(** A call of a lifecycle method. *)
Inductive Call :=
| Pay (paymentId : string)
| StartProcessing
| Ship (shipmentId trackingNumber carrier : string)
| Deliver
| Complete
| Cancel (reason : string)
| Refund.

Definition run (c : Call) (now : Date) : M Order.t unit :=
  match c with
  | Pay paymentId => Order.pay paymentId now
  | StartProcessing => Order.startProcessing
  | Ship shipmentId trackingNumber carrier => Order.ship shipmentId trackingNumber carrier now
  | Deliver => Order.deliver now
  | Complete => Order.complete
  | Cancel reason => Order.cancel reason now
  | Refund => Order.refund
  end.

(** The precondition of each lifecycle method. *)
Definition precondition (c : Call) (o : Order.t) : Prop :=
  match c with
  | Pay _ => Order.getStatus o = OrderStatus.PENDING /\
             Order.getPaymentStatus o = PaymentStatus.PENDING
  | StartProcessing => Order.getStatus o = OrderStatus.PAID
  | Ship _ _ _ => Order.getStatus o = OrderStatus.PROCESSING
  | Deliver => Order.getStatus o = OrderStatus.SHIPPED
  | Complete => Order.getStatus o = OrderStatus.DELIVERED
  | Cancel _ => Order.getStatus o <> OrderStatus.SHIPPED /\
                Order.getStatus o <> OrderStatus.DELIVERED /\
                Order.getStatus o <> OrderStatus.COMPLETED
  | Refund => Order.getPaymentStatus o = PaymentStatus.COMPLETED
  end.

End OrderSpec.

(** ** Properties of the pricing service, as the specification words them *)

Module PricingSpec.

Import OrderPricingService.

(** The total of a breakdown, recomputed from its other components. *)
Definition recomputedTotal (p : OrderPricing) : result Money.t :=
  let* afterDiscount := Money.subtract (subtotal p) (discountAmount p) in
  let* withShipping := Money.add afterDiscount (shippingFee p) in
  Money.add withShipping (taxAmount p).

(** The checks of [validateOrderPricing] against the recomputed subtotal
    [s] and total [t], each with the message of its violation. *)
Definition checks (p : OrderPricing) (s t : Money.t) : list (bool * string) :=
  [ (Money.equals (subtotal p) s,
     "小计计算错误，期望: " ++ JS.toString (Money.amount s)
     ++ ", 实际: " ++ JS.toString (Money.amount (subtotal p)));
    (Money.equals (totalAmount p) t,
     "总金额计算错误，期望: " ++ JS.toString (Money.amount t)
     ++ ", 实际: " ++ JS.toString (Money.amount (totalAmount p)));
    (negb (JS.gt (Money.amount (discountAmount p)) (Money.amount (subtotal p))),
     "折扣金额不能超过订单小计");
    (negb (JS.lt (Money.amount (subtotal p)) 0%float), "订单小计不能为负数");
    (negb (JS.lt (Money.amount (discountAmount p)) 0%float), "折扣金额不能为负数");
    (negb (JS.lt (Money.amount (shippingFee p)) 0%float), "运费不能为负数");
    (negb (JS.lt (Money.amount (taxAmount p)) 0%float), "税费不能为负数") ].

(** Every check holds: subtotal and total equal the recomputed ones
    exactly, the discount does not exceed the subtotal, no component is
    negative. *)
Definition exactlyValid (p : OrderPricing) (s t : Money.t) : bool :=
  forallb fst (checks p s t).

(** One message per violated check. *)
Definition discrepancies (p : OrderPricing) (s t : Money.t) : list string :=
  map snd (filter (fun c => negb (fst c)) (checks p s t)).

(** Validity as the specification words it: subtotal and total within an
    absolute tolerance of 0.01 of the recomputed values, the four
    components non-negative, the discount at most the subtotal. *)
Definition within (a b : JS.number) : bool :=
  JS.le (JS.Math_abs (a - b)%float) 0.01%float.

Definition validWithinTolerance (items : list OrderItem.t) (p : OrderPricing) : bool :=
  within (Money.amount (subtotal p)) (OrderSpec.sumTotalPrice items)
  && within (Money.amount (totalAmount p))
       (Money.amount (subtotal p) - Money.amount (discountAmount p)
        + Money.amount (shippingFee p) + Money.amount (taxAmount p))%float
  && JS.le 0%float (Money.amount (subtotal p))
  && JS.le 0%float (Money.amount (discountAmount p))
  && JS.le 0%float (Money.amount (shippingFee p))
  && JS.le 0%float (Money.amount (taxAmount p))
  && JS.le (Money.amount (discountAmount p)) (Money.amount (subtotal p)).



(** The total quantity of the items. *)
Definition totalQuantity (items : list OrderItem.t) : JS.number :=
  fold_left (fun total item => (total + OrderItem.quantity item)%float) items 0%float.


End PricingSpec.

(** ** Properties of the inventory, as the specification words them *)

Module InventorySpec.

(** What the constructor's validation leaves standing: no quantity is
    negative and the reserved quantity is not greater than the total. *)
Definition validated (i : Inventory.t) : Prop :=
  JS.lt (Inventory.quantity i) 0%float = false /\
  JS.lt (Inventory.reservedQuantity i) 0%float = false /\
  JS.lt (Inventory.minStockLevel i) 0%float = false /\
  JS.gt (Inventory.reservedQuantity i) (Inventory.quantity i) = false.

(** [0 <= reservedQuantity <= quantity] *)
Definition bounded (i : Inventory.t) : Prop :=
  JS.le 0%float (Inventory.reservedQuantity i) = true /\
  JS.le (Inventory.reservedQuantity i) (Inventory.quantity i) = true.

(** Both counts are numbers, not NaN. *)
Definition counted (i : Inventory.t) : Prop :=
  JS.isNaN (Inventory.quantity i) = false /\
  JS.isNaN (Inventory.reservedQuantity i) = false.

(** An inventory operation with its argument. *)
Inductive Operation := Reserve | ReleaseReservation | Deduct | AddStock.

Definition apply (op : Operation) (i : Inventory.t) (q : JS.number) : result Inventory.t :=
  match op with
  | Reserve => Inventory.reserve i q
  | ReleaseReservation => Inventory.releaseReservation i q
  | Deduct => Inventory.deduct i q
  | AddStock => Inventory.addStock i q
  end.

End InventorySpec.

(** ** Properties of the reservation, as the specification words them *)

Module ReservationSpec.

Import InventoryService.

(** Why an item of a batch is invalid, if it is: the product is missing,
    its status is not ACTIVE, or its available stock is below the
    requested quantity. *)
Definition failure (store : gmap string Product.t) (item : InventoryReservationItem)
    : option string :=
  match store !! productId item with
  | None => Some "商品不存在"
  | Some product =>
      if negb (ProductStatus.eqb (Product.getStatus product) ProductStatus.ACTIVE)
      then Some "商品已下架"
      else
        let available := Inventory.getAvailable (Product.getInventory product) in
        if JS.lt available (requestedQuantity item)
        then Some ("库存不足，可用库存：" ++ JS.toString available ++ "，需要："
                   ++ JS.toString (requestedQuantity item))
        else None
  end.

End ReservationSpec.

(** ** The scenarios of the specification *)

Module Scenario.

Definition snapshot : OrderItem.ProductSnapshot :=
  OrderItem.mkSnapshot "item" "an item" "".

Definition beijing : Address.t :=
  Address.mk "中国" "北京" "北京" "朝阳区" "建国路1号" "100000" "张三" "13800000000".

Definition chengdu : Address.t :=
  Address.mk "中国" "四川" "成都" "武侯区" "人民南路1号" "610000" "李四" "13900000000".

Definition cny (a : JS.number) : Money.t := Money.mk a CNY.
Arguments cny a%_float.

(** Two items at 50 CNY and one at 100 CNY. *)
Definition item50x2 : OrderItem.t :=
  OrderItem.mk "i1" "p1" "mug" "SKU-1" 2%float (cny 50) (cny 100) (cny 0) snapshot.

Definition item100 : OrderItem.t :=
  OrderItem.mk "i2" "p2" "lamp" "SKU-2" 1%float (cny 100) (cny 100) (cny 0) snapshot.

Definition cart200 : list OrderItem.t := [item50x2; item100].

(** Three items at 100 CNY, and one item at 199 CNY. *)
Definition item100x3 : OrderItem.t :=
  OrderItem.mk "i3" "p2" "lamp" "SKU-2" 3%float (cny 100) (cny 300) (cny 0) snapshot.

Definition item199 : OrderItem.t :=
  OrderItem.mk "i4" "p3" "chair" "SKU-3" 1%float (cny 199) (cny 199) (cny 0) snapshot.

Definition generatedA : Order.Generated :=
  Order.mkGenerated "o1" "20241215123456" 1734220800000%Z.

Definition noMetadata : Order.PartialMetadata := Order.mkPartial None None None None None.

(** The order of scenario A: subtotal 200, discount 20, shipping 8, total 188. *)
Definition propsA : Order.OrderProps :=
  Order.mkProps "20241215123456" "u1" cart200 beijing beijing
    (cny 200) (cny 20) (cny 8) (cny 0) (cny 188) ALIPAY
    OrderStatus.PENDING PaymentStatus.PENDING ShippingStatus.PENDING
    1734220800000%Z None None None None
    (Order.mkMetadata None None "web" None None).

Definition orderA : Order.t :=
  Order.mk "o1" propsA
    [Order.OrderCreatedEvent "o1" "20241215123456" "u1" (cny 188)
       [("p1", 2%float, cny 50); ("p2", 1%float, cny 100)]].

(** The same properties with a total that is one yuan too high. *)
Definition propsA_wrongTotal : Order.OrderProps :=
  Order.mkProps "20241215123456" "u1" cart200 beijing beijing
    (cny 200) (cny 20) (cny 8) (cny 0) (cny 189) ALIPAY
    OrderStatus.PENDING PaymentStatus.PENDING ShippingStatus.PENDING
    1734220800000%Z None None None None
    (Order.mkMetadata None None "web" None None).

(** The pricing of scenario A and of scenario B. *)
Definition pricingA : OrderPricingService.OrderPricing :=
  OrderPricingService.mkPricing (cny 200) (cny 20) (cny 8) (cny 0) (cny 188).


(** The pricing of scenario A with a total one cent too high, and with a
    discount above the subtotal. *)
Definition pricingA_off : OrderPricingService.OrderPricing :=
  OrderPricingService.mkPricing (cny 200) (cny 20) (cny 8) (cny 0) (cny 188.01).

Definition pricingA_overDiscount : OrderPricingService.OrderPricing :=
  OrderPricingService.mkPricing (cny 200) (cny 230) (cny 8) (cny 0) (cny 188).

(** The order of scenario A after payment, after payment and refund, and
    after payment, processing and shipment. *)
Definition paidA : Order.t :=
  snd (Order.pay "pay-1" 1734221000000%Z orderA).

Definition refundedA : Order.t := snd (Order.refund paidA).

Definition shippedA : Order.t :=
  snd (Order.ship "s1" "SF123" "SF" 1734250000000%Z (snd (Order.startProcessing paidA))).

(** A store with one product, active, one unit in stock and none
    reserved; a batch asking for five units of it, and one asking for one. *)
Definition chair : Product.t :=
  Product.mk "p3" "chair" (Inventory.mk 1%float 0%float 0%float) ProductStatus.ACTIVE
    1734000000000%Z [].

Definition store : gmap string Product.t := {[ "p3" := chair ]}.

Definition chair5 : InventoryService.InventoryReservationItem :=
  InventoryService.mkItem "p3" "chair" 5%float.

Definition chair1 : InventoryService.InventoryReservationItem :=
  InventoryService.mkItem "p3" "chair" 1%float.

(** Checkouts of the cart of scenario A in which the reservation succeeds,
    one step of the [try] block fails, and the release of the reservation
    fails as well.  The world is the log of the calls made on the
    collaborators; a cart line is a product identifier, a name and a
    quantity. *)
Definition CartLine : Type := string * string * JS.number.

Definition cartLines : list CartLine := [("p1", "mug", 2%float); ("p2", "lamp", 1%float)].

Definition logged {A : Type} (entry : string) (r : result A) : M (list string) A :=
  fun w => (r, (w ++ [entry])%list).

Inductive Step :=
  ItemBuilding | Pricing | OrderConstruction | OrderSave | CartSave | EventPublication.

Definition fails (failing step : Step) : bool :=
  match failing, step with
  | ItemBuilding, ItemBuilding | Pricing, Pricing | OrderConstruction, OrderConstruction
  | OrderSave, OrderSave | CartSave, CartSave | EventPublication, EventPublication => true
  | _, _ => false
  end.

(** The error of each failing step; the order construction fails on a
    pricing whose discount is above the subtotal. *)
Definition errorOf (failing : Step) : Error :=
  match failing with
  | ItemBuilding => "TypeError: product.getSKU is not a function"
  | Pricing => "不能对不同货币进行运算"
  | OrderConstruction => "减法结果不能为负数"
  | OrderSave => "E11000 duplicate key error"
  | CartSave => "cart write failed"
  | EventPublication => "event bus unavailable"
  end.

Definition answer {A : Type} (failing step : Step) (a : A) : result A :=
  if fails failing step then Throw (errorOf failing) else Ok a.

Definition depsFailing (failing : Step)
    : CreateOrderCommand.Collaborators (list string) (list CartLine) CartLine unit :=
  CreateOrderCommand.mkCollaborators (list string) (list CartLine) CartLine unit
    (fun s => Ok s)
    (fun s => Ok s)
    (fun line => Ok (fst (fst line)))
    (fun line => snd (fst line))
    (fun line => snd line)
    (fun cart => match cart with [] => true | _ => false end)
    (fun cart => cart)
    (fun _ => [])
    (fun cart => logged "cart.publish" (Ok cart))
    (fun id => logged ("cart.findById " ++ id)%string (Ok (Some cartLines)))
    (fun id => logged ("cart.findByUserId " ++ id)%string (Ok (Some cartLines)))
    (fun _ => logged "cart.save" (answer failing CartSave tt))
    (fun _ => logged "order.save" (answer failing OrderSave tt))
    (fun _ => logged "eventBus.publishAll" (answer failing EventPublication tt))
    (fun items => logged "reserveInventoryBatch" (Ok (map (fun _ => tt) items)))
    (fun _ => logged "releaseReservedInventoryBatch" (Throw "connection lost"))
    (fun items address couponCode =>
       if fails failing Pricing then Throw (errorOf failing)
       else if fails failing OrderConstruction then
         Ok (OrderPricingService.mkPricing (cny 200) (cny 500) (cny 8) (cny 0) (cny 0))
       else OrderPricingService.calculateOrderPricing items address couponCode)
    (fun _ _ => logged "createOrderItems" (answer failing ItemBuilding cart200))
    (fun _ => Ok beijing)
    (ret generatedA)
    (fun label error w => (w ++ [(label ++ " " ++ error)%string])%list).

Definition deps : CreateOrderCommand.Collaborators (list string) (list CartLine) CartLine unit :=
  depsFailing OrderSave.

Definition request : CreateOrderCommand.CreateOrderRequest :=
  CreateOrderCommand.mkRequest "u1" None
    (CreateOrderCommand.mkAddressData "中国" "北京" "北京" "朝阳区" "建国路1号" (Some "100000")
       "张三" "13800000000")
    None ALIPAY (Some "SAVE10") None None.

End Scenario.

(** ** Further properties of the code *)

Module MoneySpec.

(** What the validation of [Money] leaves standing: the amount is not
    negative, is finite and prints with at most two decimal places. *)
Definition valid (m : Money.t) : Prop :=
  JS.lt (Money.amount m) 0 = false /\
  JS.isFinite (Money.amount m) = true /\
  (Money.decimalPlaces (Money.amount m) <= 2)%nat.

End MoneySpec.

Module OrderItemSpec.

(** What the validation of [OrderItem] leaves standing. *)
Definition valid (i : OrderItem.t) : Prop :=
  OrderItem.productId i <> "" /\
  JS.trim (OrderItem.productName i) <> "" /\
  JS.trim (OrderItem.sku i) <> "" /\
  JS.gt (OrderItem.quantity i) 0 = true /\
  JS.isInteger (OrderItem.quantity i) = true /\
  exists gross expected,
    Money.multiply (OrderItem.unitPrice i) (OrderItem.quantity i) = Ok gross /\
    Money.subtract gross (OrderItem.discountAmount i) = Ok expected /\
    Money.equals (OrderItem.totalPrice i) expected = true.


End OrderItemSpec.

Module LifecycleSpec.

(** The status a lifecycle call leaves when it succeeds. *)
Definition targetStatus (c : OrderSpec.Call) : OrderStatus.t :=
  match c with
  | OrderSpec.Pay _ => OrderStatus.PAID
  | OrderSpec.StartProcessing => OrderStatus.PROCESSING
  | OrderSpec.Ship _ _ _ => OrderStatus.SHIPPED
  | OrderSpec.Deliver => OrderStatus.DELIVERED
  | OrderSpec.Complete => OrderStatus.COMPLETED
  | OrderSpec.Cancel _ => OrderStatus.CANCELLED
  | OrderSpec.Refund => OrderStatus.REFUNDED
  end.

(** The events a lifecycle call records on the order [o] when it succeeds. *)
Definition emitted (c : OrderSpec.Call) (now : Date) (o : Order.t) : list Order.DomainEvent :=
  match c with
  | OrderSpec.Pay paymentId =>
      [Order.OrderPaidEvent (Order.id o) paymentId (Order.totalAmount (Order.props o)) now]
  | OrderSpec.Ship shipmentId trackingNumber carrier =>
      [Order.OrderShippedEvent (Order.id o) shipmentId trackingNumber carrier]
  | OrderSpec.Deliver => [Order.OrderDeliveredEvent (Order.id o) now]
  | OrderSpec.Cancel reason => [Order.OrderCancelledEvent (Order.id o) reason now]
  | OrderSpec.StartProcessing | OrderSpec.Complete | OrderSpec.Refund => []
  end.

(** The parts of an order no lifecycle call writes. *)
Definition sameOrder (o o' : Order.t) : Prop :=
  Order.id o' = Order.id o /\
  Order.orderNumber (Order.props o') = Order.orderNumber (Order.props o) /\
  Order.customerId (Order.props o') = Order.customerId (Order.props o) /\
  Order.items (Order.props o') = Order.items (Order.props o) /\
  Order.shippingAddress (Order.props o') = Order.shippingAddress (Order.props o) /\
  Order.billingAddress (Order.props o') = Order.billingAddress (Order.props o) /\
  Order.subtotal (Order.props o') = Order.subtotal (Order.props o) /\
  Order.discountAmount (Order.props o') = Order.discountAmount (Order.props o) /\
  Order.shippingFee (Order.props o') = Order.shippingFee (Order.props o) /\
  Order.taxAmount (Order.props o') = Order.taxAmount (Order.props o) /\
  Order.totalAmount (Order.props o') = Order.totalAmount (Order.props o) /\
  Order.paymentMethod (Order.props o') = Order.paymentMethod (Order.props o) /\
  Order.orderDate (Order.props o') = Order.orderDate (Order.props o) /\
  Order.notes (Order.props o') = Order.notes (Order.props o) /\
  Order.metadata (Order.props o') = Order.metadata (Order.props o).

(** The orders that [create] returns and the lifecycle calls that succeed
    lead to. *)
Inductive reachable : Order.t -> Prop :=
| reachable_create g customerId items shippingAddress billingAddress paymentMethod
    shippingFee taxAmount discountAmount notes metadata o :
    Order.create g customerId items shippingAddress billingAddress paymentMethod
      shippingFee taxAmount discountAmount notes metadata = Ok o ->
    reachable o
| reachable_step c now o o' :
    reachable o -> OrderSpec.run c now o = (Ok tt, o') -> reachable o'.

(** How far the shipment of an order has come, with its timestamps. *)
Definition trail (p : Order.OrderProps) : Prop :=
  match Order.shippingStatus p with
  | ShippingStatus.PENDING | ShippingStatus.PREPARING =>
      Order.shippedAt p = None /\ Order.deliveredAt p = None
  | ShippingStatus.SHIPPED => Order.shippedAt p <> None /\ Order.deliveredAt p = None
  | ShippingStatus.DELIVERED => Order.shippedAt p <> None /\ Order.deliveredAt p <> None
  | ShippingStatus.IN_TRANSIT | ShippingStatus.EXCEPTION => False
  end.

(** The combinations of order, payment and shipping status, with the
    timestamps, that go together. *)
Definition coherent (p : Order.OrderProps) : Prop :=
  trail p /\
  match Order.status p with
  | OrderStatus.PENDING =>
      Order.paymentStatus p = PaymentStatus.PENDING /\ Order.paidAt p = None /\
      Order.shippingStatus p = ShippingStatus.PENDING
  | OrderStatus.PAID =>
      Order.paymentStatus p = PaymentStatus.COMPLETED /\ Order.paidAt p <> None /\
      Order.shippingStatus p = ShippingStatus.PENDING
  | OrderStatus.PROCESSING =>
      Order.paymentStatus p = PaymentStatus.COMPLETED /\ Order.paidAt p <> None /\
      Order.shippingStatus p = ShippingStatus.PREPARING
  | OrderStatus.SHIPPED =>
      Order.paymentStatus p = PaymentStatus.COMPLETED /\ Order.paidAt p <> None /\
      Order.shippingStatus p = ShippingStatus.SHIPPED
  | OrderStatus.DELIVERED | OrderStatus.COMPLETED =>
      Order.paymentStatus p = PaymentStatus.COMPLETED /\ Order.paidAt p <> None /\
      Order.shippingStatus p = ShippingStatus.DELIVERED
  | OrderStatus.REFUNDED =>
      Order.paymentStatus p = PaymentStatus.REFUNDED /\ Order.paidAt p <> None
  | OrderStatus.CANCELLED =>
      (Order.paymentStatus p = PaymentStatus.PENDING /\ Order.paidAt p = None /\
       Order.shippingStatus p = ShippingStatus.PENDING) \/
      (Order.paymentStatus p = PaymentStatus.REFUNDED /\ Order.paidAt p <> None)
  end.

End LifecycleSpec.

Module ProductSpec.

(** A call of one of the methods of [Product] that write its status or
    inventory. *)
Inductive Operation :=
| ReserveInventory (q : JS.number)
| ReleaseInventory (q : JS.number)
| DeductInventory (q : JS.number)
| AddStock (q : JS.number)
| UpdateStatus (s : ProductStatus.t).

Definition run (op : Operation) (now : Date) : M Product.t unit :=
  match op with
  | ReserveInventory q => Product.reserveInventory q now
  | ReleaseInventory q => Product.releaseInventory q now
  | DeductInventory q => Product.deductInventory q now
  | AddStock q => Product.addStock q now
  | UpdateStatus s => Product.updateStatus s now
  end.

(** The operations that can bring stock back. *)
Definition restocks (op : Operation) : bool :=
  match op with
  | ReleaseInventory _ | AddStock _ => true
  | ReserveInventory _ | DeductInventory _ | UpdateStatus _ => false
  end.

(** An active product has stock available. *)
Definition activeInStock (p : Product.t) : Prop :=
  Product.status p = ProductStatus.ACTIVE ->
  Inventory.isInStock (Product.inventory p) = true.

End ProductSpec.

Module StoreSpec.

(** Every product is stored under its own identifier. *)
Definition wellKeyed (store : gmap string Product.t) : Prop :=
  forall k p, store !! k = Some p -> Product.id p = k.

End StoreSpec.

Module PricingScenario.




End PricingScenario.

Module CheckoutScenario.

(** The collaborators of a checkout of the cart of scenario A in which no
    step fails, with the pricing service of the repository. *)
Definition deps
    : CreateOrderCommand.Collaborators (list string) (list Scenario.CartLine)
        Scenario.CartLine unit :=
  CreateOrderCommand.mkCollaborators (list string) (list Scenario.CartLine)
    Scenario.CartLine unit
    (fun s => Ok s) (fun s => Ok s) (fun line => Ok (fst (fst line)))
    (fun line => snd (fst line)) (fun line => snd line)
    (fun cart => match cart with [] => true | _ => false end)
    (fun cart => cart) (fun _ => [])
    (fun cart => Scenario.logged "cart.publish" (Ok cart))
    (fun id => Scenario.logged "cart.findById" (Ok (Some Scenario.cartLines)))
    (fun id => Scenario.logged "cart.findByUserId" (Ok (Some Scenario.cartLines)))
    (fun _ => Scenario.logged "cart.save" (Ok tt))
    (fun _ => Scenario.logged "order.save" (Ok tt))
    (fun _ => Scenario.logged "eventBus.publishAll" (Ok tt))
    (fun items => Scenario.logged "reserveInventoryBatch" (Ok (map (fun _ => tt) items)))
    (fun _ => Scenario.logged "releaseReservedInventoryBatch" (Ok tt))
    OrderPricingService.calculateOrderPricing
    (fun _ _ => Scenario.logged "createOrderItems" (Ok Scenario.cart200))
    (fun _ => Ok Scenario.beijing)
    (ret Scenario.generatedA)
    (fun label error w => w).

Definition response : CreateOrderCommand.CreateOrderResponse :=
  CreateOrderCommand.mkResponse "o1" "20241215123456"
    (188%float, CNY) (200%float, CNY) (20%float, CNY) (8%float, CNY) (0%float, CNY).

End CheckoutScenario.

Module StoreCheckout.

(** A checkout against the product store: the reservation is the one of
    [InventoryService] at the time [now], the cart is the cart of scenario
    A, and the other collaborators answer without touching the store. *)
Definition deps (now : Date)
    : CreateOrderCommand.Collaborators (gmap string Product.t) (list Scenario.CartLine)
        Scenario.CartLine Product.t :=
  CreateOrderCommand.mkCollaborators (gmap string Product.t) (list Scenario.CartLine)
    Scenario.CartLine Product.t
    (fun s => Ok s) (fun s => Ok s) (fun line => Ok (fst (fst line)))
    (fun line => snd (fst line)) (fun line => snd line)
    (fun cart => match cart with [] => true | _ => false end)
    (fun cart => cart) (fun _ => [])
    (fun cart => ret cart)
    (fun id => ret (Some Scenario.cartLines))
    (fun id => ret (Some Scenario.cartLines))
    (fun _ => ret tt)
    (fun _ => ret tt)
    (fun _ => ret tt)
    (fun items => InventoryService.reserveInventoryBatch items now)
    (fun items => InventoryService.releaseReservedInventoryBatch items now)
    OrderPricingService.calculateOrderPricing
    (fun _ _ => ret Scenario.cart200)
    (fun _ => Ok Scenario.beijing)
    (ret Scenario.generatedA)
    (fun label error w => w).

(** A store that holds the two products of the cart, active and in stock. *)
Definition mug : Product.t :=
  Product.mk "p1" "mug" (Inventory.mk 10%float 0%float 0%float) ProductStatus.ACTIVE
    1734000000000%Z [].

Definition lamp : Product.t :=
  Product.mk "p2" "lamp" (Inventory.mk 10%float 0%float 0%float) ProductStatus.ACTIVE
    1734000000000%Z [].

Definition store : gmap string Product.t := {[ "p1" := mug; "p2" := lamp ]}.

End StoreCheckout.

(** * Theorems *)

(** ** Numbers *)

(** [Number::toString] on integers, fractions, the sum 0.1 + 0.2, and
    numbers printed with an exponent. *)
Example toString_examples :
  map JS.toString
    [0; 8; 199; 188.01; 0.1; 0.1 + 0.2; 434.99999999999994; 1e21; 1.5e-7; 1e-7;
     123456789012345680000; 5e-324; -2.5; PrimFloat.nan; PrimFloat.infinity]%float
  = ["0"; "8"; "199"; "188.01"; "0.1"; "0.30000000000000004"; "434.99999999999994";
     "1e+21"; "1.5e-7"; "1e-7"; "123456789012345680000"; "5e-324"; "-2.5"; "NaN";
     "Infinity"].
Proof. vm_compute; reflexivity. Qed.

(** [Math.round] takes a tie towards +Infinity and keeps the sign of zero. *)
Example Math_round_examples :
  map JS.Math_round [2.5; -2.5; 0.5; 0.49999999999999994; 4.35 * 100; 3000.0000000000005]%float
  = [3; -2; 1; 0; 435; 3000]%float /\
  Prim2SF (JS.Math_round (-0.5)%float) = S754_zero true.
Proof. split; vm_compute; reflexivity. Qed.

(** The amounts the constructor of [Money] accepts and refuses. *)
Example Money_new_examples :
  Money.new 188.01%float CNY = Ok (Money.mk 188.01%float CNY) /\
  Money.new 0%float USD = Ok (Money.mk 0%float USD) /\
  Money.new 1e-7%float CNY = Ok (Money.mk 1e-7%float CNY) /\
  Money.new (-1)%float CNY = Throw "金额不能为负数" /\
  Money.new PrimFloat.nan CNY = Throw "金额必须是有效数字" /\
  Money.new PrimFloat.infinity CNY = Throw "金额必须是有效数字" /\
  Money.new 1.005%float CNY = Throw "金额精度最多2位小数" /\
  Money.new 1.5e21%float CNY = Throw "金额精度最多2位小数".
Proof. repeat split; vm_compute; reflexivity. Qed.

(** ** Money *)

Lemma Money_new_inv (a : JS.number) (c : Currency) (m : Money.t) :
  Money.new a c = Ok m -> m = Money.mk a c /\ Money.validate m = Ok tt.
Proof.
  unfold Money.new, bind.
  destruct (Money.validate (Money.mk a c)) as [[]|e] eqn:Hv; [|discriminate].
  intros [= <-]. auto.
Qed.

Lemma Money_zero_ok (c : Currency) : Money.zero c = Ok (Money.mk 0%float c).
Proof. reflexivity. Qed.

Lemma Currency_eqb_eq (a b : Currency) : Currency_eqb a b = true <-> a = b.
Proof. destruct a, b; simpl; split; congruence. Qed.

Lemma Money_add_inv (x y m : Money.t) :
  Money.add x y = Ok m ->
  m = Money.mk (Money.amount x + Money.amount y)%float (Money.currency x) /\
  Money.currency y = Money.currency x.
Proof.
  unfold Money.add.
  destruct (Currency_eqb (Money.currency x) (Money.currency y)) eqn:Hc; simpl; [|discriminate].
  intros H. apply Money_new_inv in H as [H _]. split; [exact H|].
  symmetry. now apply Currency_eqb_eq.
Qed.

Lemma Money_subtract_inv (x y m : Money.t) :
  Money.subtract x y = Ok m ->
  m = Money.mk (Money.amount x - Money.amount y)%float (Money.currency x) /\
  Money.currency y = Money.currency x /\
  JS.lt (Money.amount x - Money.amount y)%float 0%float = false.
Proof.
  unfold Money.subtract.
  destruct (Currency_eqb (Money.currency x) (Money.currency y)) eqn:Hc; simpl; [|discriminate].
  destruct (JS.lt _ _) eqn:Hlt; [discriminate|].
  intros H. apply Money_new_inv in H as [H _]. split; [exact H|]. split; [|reflexivity].
  symmetry. now apply Currency_eqb_eq.
Qed.

Lemma Money_equals_amount (x y : Money.t) :
  Money.equals x y = true ->
  JS.strict_eq (Money.amount x) (Money.amount y) = true /\ Money.currency x = Money.currency y.
Proof.
  unfold Money.equals. intros H. apply andb_true_iff in H as [H1 H2].
  split; [exact H1|]. now apply Currency_eqb_eq.
Qed.

(** The loop that adds up total prices adds up their amounts. *)
Lemma foldM_add_amount (items : list OrderItem.t) (z s : Money.t) :
  foldM (fun subtotal item => Money.add subtotal (OrderItem.getTotalPrice item)) items z = Ok s ->
  Money.amount s =
    fold_left (fun acc item => (acc + Money.amount (OrderItem.totalPrice item))%float)
              items (Money.amount z) /\
  Money.currency s = Money.currency z.
Proof.
  revert z. induction items as [|item rest IH]; intros z; simpl.
  - intros [= <-]. auto.
  - unfold bind. destruct (Money.add z (OrderItem.getTotalPrice item)) as [z'|e] eqn:Ha; [|discriminate].
    intros H. apply IH in H as [H1 H2]. apply Money_add_inv in Ha as [-> _].
    simpl in H1, H2. auto.
Qed.

Lemma calculateSubtotalFromItems_amount (items : list OrderItem.t) (s : Money.t) :
  Order.calculateSubtotalFromItems items = Ok s ->
  Money.amount s = OrderSpec.sumTotalPrice items.
Proof.
  unfold Order.calculateSubtotalFromItems. destruct items as [|first rest]; [discriminate|].
  rewrite Money_zero_ok. unfold bind at 1. intros H.
  apply foldM_add_amount in H as [H _]. exact H.
Qed.

(** ** The order aggregate *)

Lemma Order_validate_inv (p : Order.OrderProps) :
  Order.validate p = Ok tt ->
  Order.customerId p <> "" /\ Order.items p <> [] /\ OrderSpec.invariant p.
Proof.
  unfold Order.validate.
  destruct (String.eqb (Order.customerId p) "") eqn:Hc; [discriminate|].
  apply String.eqb_neq in Hc.
  destruct (Order.items p) as [|i rest] eqn:Hi; [discriminate|].
  unfold Order.calculateSubtotal. rewrite Hi. unfold bind.
  destruct (Order.calculateSubtotalFromItems (i :: rest)) as [s|] eqn:Hs; [|discriminate].
  destruct (Money.equals (Order.subtotal p) s) eqn:He; simpl; [|discriminate].
  destruct (Money.subtract _ _) as [a|] eqn:Ha; [|discriminate].
  destruct (Money.add a _) as [b|] eqn:Hb; [|discriminate].
  destruct (Money.add b _) as [t|] eqn:Ht; [|discriminate].
  destruct (Money.equals (Order.totalAmount p) t) eqn:He'; simpl; [|discriminate].
  intros Hst. split; [exact Hc|]. split; [discriminate|].
  apply Money_equals_amount in He as [He _]. apply Money_equals_amount in He' as [He' _].
  apply calculateSubtotalFromItems_amount in Hs.
  apply Money_subtract_inv in Ha as (-> & _ & _).
  apply Money_add_inv in Hb as [-> _]. apply Money_add_inv in Ht as [-> _].
  simpl in He'. unfold OrderSpec.invariant. rewrite Hi, <- Hs.
  repeat split; try assumption.
  - intros Hp. rewrite Hp in Hst. destruct (Order.paymentStatus p); simpl in Hst; congruence.
  - intros Hp. rewrite Hp in Hst. destruct (Order.shippingStatus p); simpl in Hst; congruence.
Qed.

Lemma scenario_items_created :
  OrderItem.create "i1" "p1" "mug" "SKU-1" 2%float (Scenario.cny 50) None Scenario.snapshot
    = Ok Scenario.item50x2 /\
  OrderItem.create "i2" "p2" "lamp" "SKU-2" 1%float (Scenario.cny 100) None Scenario.snapshot
    = Ok Scenario.item100 /\
  OrderItem.create "i3" "p2" "lamp" "SKU-2" 3%float (Scenario.cny 100) None Scenario.snapshot
    = Ok Scenario.item100x3 /\
  OrderItem.create "i4" "p3" "chair" "SKU-3" 1%float (Scenario.cny 199) None Scenario.snapshot
    = Ok Scenario.item199.
Proof. repeat split; vm_compute; reflexivity. Qed.

(** C1. An order built by [reconstitute] or [create] satisfies the aggregate
    invariant: its subtotal is the sum of its items' total prices, its total
    is subtotal - discount + shipping fee + tax, status PAID comes with
    payment status COMPLETED and status SHIPPED with shipping status
    SHIPPED; and construction throws for any properties that violate one
    of the four. *)
Theorem order_construction_invariant :
  (forall p id o, Order.reconstitute p id = Ok o ->
     Order.props o = p /\ OrderSpec.invariant (Order.props o)) /\
  (forall g customerId items shippingAddress billingAddress paymentMethod
          shippingFee taxAmount discountAmount notes metadata o,
     Order.create g customerId items shippingAddress billingAddress paymentMethod
       shippingFee taxAmount discountAmount notes metadata = Ok o ->
     OrderSpec.invariant (Order.props o)) /\
  (forall p id, ~ OrderSpec.invariant p -> exists e, Order.reconstitute p id = Throw e).
Proof.
  assert (Hnew : forall p id o, Order.new p id = Ok o ->
                   Order.props o = p /\ OrderSpec.invariant p).
  { intros p id o. unfold Order.new, bind.
    destruct (Order.validate p) as [[]|e] eqn:Hv; [|discriminate].
    intros [= <-]. split; [reflexivity|]. apply Order_validate_inv in Hv. tauto. }
  split; [|split].
  - intros p id o H. apply Hnew in H as [H1 H2]. rewrite H1. auto.
  - intros g customerId items sa ba pm sf tax disc notes md o.
    unfold Order.create, bind.
    destruct (Order.defaultAmount items sf) as [sf'|]; [|discriminate].
    destruct (Order.defaultAmount items tax) as [tax'|]; [|discriminate].
    destruct (Order.defaultAmount items disc) as [disc'|]; [|discriminate].
    destruct items as [|i rest]; [discriminate|].
    destruct (Order.calculateSubtotalFromItems (i :: rest)) as [s|]; [|discriminate].
    destruct (Money.subtract s disc') as [a|]; [|discriminate].
    destruct (Money.add a sf') as [b|]; [|discriminate].
    destruct (Money.add b tax') as [t|]; [|discriminate].
    destruct (Order.new _ _) as [order|] eqn:Hn; [|discriminate].
    intros [= <-]. apply Hnew in Hn as [H1 H2]. simpl. rewrite H1. exact H2.
  - intros p id Hinv. unfold Order.reconstitute.
    destruct (Order.new p id) as [o|e] eqn:Hn; [|eauto].
    apply Hnew in Hn as [_ H]. contradiction.
Qed.

Lemma order_construction_invariant_witness :
  Order.create Scenario.generatedA "u1" Scenario.cart200 Scenario.beijing Scenario.beijing
    ALIPAY (Some (Scenario.cny 8)) (Some (Scenario.cny 0)) (Some (Scenario.cny 20))
    None Scenario.noMetadata = Ok Scenario.orderA /\
  OrderSpec.invariant (Order.props Scenario.orderA) /\
  Order.reconstitute Scenario.propsA "o1" = Ok (Order.mk "o1" Scenario.propsA []) /\
  exists e, Order.reconstitute Scenario.propsA_wrongTotal "o1" = Throw e.
Proof.
  assert (Hc : Order.create Scenario.generatedA "u1" Scenario.cart200 Scenario.beijing
                 Scenario.beijing ALIPAY (Some (Scenario.cny 8)) (Some (Scenario.cny 0))
                 (Some (Scenario.cny 20)) None Scenario.noMetadata = Ok Scenario.orderA)
    by (vm_compute; reflexivity).
  split; [exact Hc|]. split; [|split].
  - exact (proj1 (proj2 order_construction_invariant) _ _ _ _ _ _ _ _ _ _ _ _ Hc).
  - vm_compute; reflexivity.
  - apply (proj2 (proj2 order_construction_invariant)).
    intros (_ & H & _). vm_compute in H. discriminate.
Defined.

(** C9. A lifecycle method ([pay], [startProcessing], [ship], [deliver],
    [complete], [cancel], [refund]) called on an order whose state fails
    the method's precondition throws, and the order it leaves behind is the
    order it was called on: identifier, status, payment and shipping
    status, timestamps, pricing, items and pending events are all as before. *)
Theorem order_illegal_transition_unchanged (c : OrderSpec.Call) (now : Date) (o : Order.t) :
  ~ OrderSpec.precondition c o ->
  exists e, OrderSpec.run c now o = (Throw e, o).
Proof.
  destruct o as [id p events].
  destruct p as [num cust items sa ba sub disc fee tax tot pm st pst sst od pa sa' da notes md].
  unfold OrderSpec.precondition, Order.getStatus, Order.getPaymentStatus. simpl.
  intros Hpre.
  destruct c; destruct st; destruct pst;
    try (eexists; reflexivity);
    exfalso; apply Hpre; repeat split; congruence.
Qed.

Lemma order_illegal_transition_unchanged_witness :
  Order.getStatus Scenario.shippedA = OrderStatus.SHIPPED /\
  exists e, Order.cancel "changed my mind" 1734300000000%Z Scenario.shippedA
            = (Throw e, Scenario.shippedA).
Proof.
  split; [reflexivity|].
  apply (order_illegal_transition_unchanged (OrderSpec.Cancel "changed my mind")
           1734300000000%Z Scenario.shippedA).
  intros (H & _). apply H. reflexivity.
Defined.

(** Scenario D: [cancel] on a shipped order throws its message and the
    status stays SHIPPED; [ship] on a pending order throws as well. *)
Example scenario_D :
  Order.cancel "changed my mind" 1734300000000%Z Scenario.shippedA
    = (Throw "已发货的订单不能取消", Scenario.shippedA) /\
  Order.ship "s1" "SF123" "SF" 1734300000000%Z Scenario.orderA
    = (Throw "只有处理中的订单才能发货", Scenario.orderA).
Proof. split; reflexivity. Qed.

(** C4, as the code has it. [cancel] throws exactly when the status is
    SHIPPED, DELIVERED or COMPLETED and then changes nothing; from every
    other status (PENDING, PAID, PROCESSING, and also REFUNDED) it
    succeeds, sets the status to CANCELLED, records the cancelled event,
    sets the payment status to REFUNDED when the order was PAID or
    PROCESSING and keeps the payment status otherwise. *)
Theorem cancel_behaviour (reason : string) (now : Date) (o : Order.t) :
  ((exists e, fst (Order.cancel reason now o) = Throw e) <->
   (Order.getStatus o = OrderStatus.SHIPPED \/ Order.getStatus o = OrderStatus.DELIVERED \/
    Order.getStatus o = OrderStatus.COMPLETED)) /\
  ((exists e, fst (Order.cancel reason now o) = Throw e) -> snd (Order.cancel reason now o) = o) /\
  (Order.getStatus o = OrderStatus.PENDING \/ Order.getStatus o = OrderStatus.PAID \/
   Order.getStatus o = OrderStatus.PROCESSING \/ Order.getStatus o = OrderStatus.REFUNDED ->
   fst (Order.cancel reason now o) = Ok tt) /\
  (fst (Order.cancel reason now o) = Ok tt ->
   let o' := snd (Order.cancel reason now o) in
   Order.getStatus o' = OrderStatus.CANCELLED /\
   Order.getPaymentStatus o' =
     (match Order.getStatus o with
      | OrderStatus.PAID | OrderStatus.PROCESSING => PaymentStatus.REFUNDED
      | _ => Order.getPaymentStatus o
      end) /\
   Order.getShippingStatus o' = Order.getShippingStatus o /\
   Order.domainEvents o' =
     (Order.domainEvents o ++ [Order.OrderCancelledEvent (Order.id o) reason now])%list).
Proof.
  destruct o as [id p events].
  destruct p as [num cust items sa ba sub disc fee tax tot pm st pst sst od pa sa' da notes md].
  unfold Order.getStatus, Order.getPaymentStatus, Order.getShippingStatus.
  destruct st; simpl; repeat split;
    try (intros [e He]; discriminate He);
    try (intros [H|[H|H]]; discriminate H);
    try (intros [H|[H|[H|H]]]; discriminate H);
    try discriminate; try reflexivity; try (intros; reflexivity);
    try (eexists; reflexivity); try tauto.
Qed.

(** C4 as stated fails: an order that was created, paid and refunded has
    status REFUNDED, which is none of PENDING, PAID and PROCESSING, and
    [cancel] succeeds on it and takes it to CANCELLED. *)
Lemma cancel_from_refunded :
  Order.pay "pay-1" 1734221000000%Z Scenario.orderA = (Ok tt, Scenario.paidA) /\
  Order.refund Scenario.paidA = (Ok tt, Scenario.refundedA) /\
  Order.getStatus Scenario.refundedA = OrderStatus.REFUNDED /\
  fst (Order.cancel "no longer needed" 1734300000000%Z Scenario.refundedA) = Ok tt /\
  Order.getStatus (snd (Order.cancel "no longer needed" 1734300000000%Z Scenario.refundedA))
    = OrderStatus.CANCELLED /\
  ~ (forall reason now o, fst (Order.cancel reason now o) = Ok tt ->
       Order.getStatus o = OrderStatus.PENDING \/ Order.getStatus o = OrderStatus.PAID \/
       Order.getStatus o = OrderStatus.PROCESSING).
Proof.
  repeat split; try reflexivity.
  intros H.
  specialize (H "no longer needed" 1734300000000%Z Scenario.refundedA eq_refl).
  destruct H as [H|[H|H]]; discriminate H.
Qed.

(** ** The pricing service *)

Lemma push_if_app (b : bool) (msg : string) (errors : list string) :
  OrderPricingService.push_if b msg errors = (errors ++ (if b then [msg] else []))%list.
Proof. destruct b; simpl; [reflexivity|]. now rewrite app_nil_r. Qed.

Lemma Money_isGreaterThan_same (x y : Money.t) :
  Money.currency y = Money.currency x ->
  Money.isGreaterThan y x = Ok (JS.gt (Money.amount y) (Money.amount x)).
Proof.
  intros H. unfold Money.isGreaterThan. rewrite H.
  replace (Currency_eqb (Money.currency x) (Money.currency x)) with true; [reflexivity|].
  symmetry. now apply Currency_eqb_eq.
Qed.

Lemma validateOrderPricing_returns (items : list OrderItem.t)
    (p : OrderPricingService.OrderPricing) (s t : Money.t) :
  OrderPricingService.calculateSubtotal items = Ok s ->
  PricingSpec.recomputedTotal p = Ok t ->
  OrderPricingService.validateOrderPricing items p
    = Ok (OrderPricingService.mkValidation (PricingSpec.exactlyValid p s t)
            (PricingSpec.discrepancies p s t)).
Proof.
  intros Hs Ht. unfold OrderPricingService.validateOrderPricing.
  rewrite Hs. unfold bind at 1.
  unfold PricingSpec.recomputedTotal in Ht. unfold bind in Ht.
  destruct (Money.subtract _ _) as [a|] eqn:Ha; [|discriminate]. unfold bind at 1.
  destruct (Money.add a _) as [b|] eqn:Hb; [|discriminate]. unfold bind at 1.
  rewrite Ht. unfold bind at 1.
  apply Money_subtract_inv in Ha as (_ & Hc & _).
  rewrite (Money_isGreaterThan_same _ _ Hc). unfold bind.
  rewrite !push_if_app. simpl app.
  unfold PricingSpec.exactlyValid, PricingSpec.discrepancies, PricingSpec.checks,
    Money.getAmount.
  f_equal.
  destruct (Money.equals _ s), (Money.equals _ t), (JS.gt _ _),
    (JS.lt (Money.amount (OrderPricingService.subtotal p)) 0%float),
    (JS.lt (Money.amount (OrderPricingService.discountAmount p)) 0%float),
    (JS.lt (Money.amount (OrderPricingService.shippingFee p)) 0%float),
    (JS.lt (Money.amount (OrderPricingService.taxAmount p)) 0%float); reflexivity.
Qed.

Lemma validateOrderPricing_recomputes (items : list OrderItem.t)
    (p : OrderPricingService.OrderPricing) (v : OrderPricingService.Validation) :
  OrderPricingService.validateOrderPricing items p = Ok v ->
  exists s t, OrderPricingService.calculateSubtotal items = Ok s /\
              PricingSpec.recomputedTotal p = Ok t.
Proof.
  unfold OrderPricingService.validateOrderPricing, PricingSpec.recomputedTotal, bind.
  destruct (OrderPricingService.calculateSubtotal items) as [s|]; [|discriminate].
  destruct (Money.subtract _ _) as [a|]; [|discriminate].
  destruct (Money.add a _) as [b|]; [|discriminate].
  destruct (Money.add b _) as [t|]; [|discriminate].
  intros _. eauto.
Qed.

Lemma exactlyValid_no_discrepancy (p : OrderPricingService.OrderPricing) (s t : Money.t) :
  PricingSpec.exactlyValid p s t = true <-> PricingSpec.discrepancies p s t = [].
Proof.
  unfold PricingSpec.exactlyValid, PricingSpec.discrepancies.
  induction (PricingSpec.checks p s t) as [|[b m] l IH]; simpl; [tauto|].
  destruct b; simpl; [exact IH|]. split; discriminate.
Qed.

Lemma validateOrderPricing_valid_iff (items : list OrderItem.t)
    (p : OrderPricingService.OrderPricing) (v : OrderPricingService.Validation) :
  OrderPricingService.validateOrderPricing items p = Ok v ->
  exists s t,
    OrderPricingService.calculateSubtotal items = Ok s /\
    PricingSpec.recomputedTotal p = Ok t /\
    (OrderPricingService.isValid v = true <->
       Money.equals (OrderPricingService.subtotal p) s = true /\
       Money.equals (OrderPricingService.totalAmount p) t = true /\
       JS.gt (Money.amount (OrderPricingService.discountAmount p))
             (Money.amount (OrderPricingService.subtotal p)) = false /\
       JS.lt (Money.amount (OrderPricingService.subtotal p)) 0%float = false /\
       JS.lt (Money.amount (OrderPricingService.discountAmount p)) 0%float = false /\
       JS.lt (Money.amount (OrderPricingService.shippingFee p)) 0%float = false /\
       JS.lt (Money.amount (OrderPricingService.taxAmount p)) 0%float = false) /\
    OrderPricingService.errors v = PricingSpec.discrepancies p s t /\
    (OrderPricingService.isValid v = true <-> OrderPricingService.errors v = []).
Proof.
  intros Hv. destruct (validateOrderPricing_recomputes _ _ _ Hv) as (s & t & Hs & Ht).
  exists s, t. rewrite (validateOrderPricing_returns _ _ _ _ Hs Ht) in Hv.
  injection Hv as <-. simpl. repeat split; try assumption.
  - unfold PricingSpec.exactlyValid, PricingSpec.checks in H. simpl in H.
    repeat (apply andb_true_iff in H as [? H]). assumption.
  - unfold PricingSpec.exactlyValid, PricingSpec.checks in H. simpl in H.
    apply andb_true_iff in H as [_ H]. apply andb_true_iff in H as [H _]. assumption.
  - unfold PricingSpec.exactlyValid, PricingSpec.checks in H. simpl in H.
    apply andb_true_iff in H as [_ H]. apply andb_true_iff in H as [_ H].
    apply andb_true_iff in H as [H _]. now apply negb_true_iff in H.
  - unfold PricingSpec.exactlyValid, PricingSpec.checks in H. simpl in H.
    do 3 apply andb_true_iff in H as [_ H].
    apply andb_true_iff in H as [H _]. now apply negb_true_iff in H.
  - unfold PricingSpec.exactlyValid, PricingSpec.checks in H. simpl in H.
    do 4 apply andb_true_iff in H as [_ H].
    apply andb_true_iff in H as [H _]. now apply negb_true_iff in H.
  - unfold PricingSpec.exactlyValid, PricingSpec.checks in H. simpl in H.
    do 5 apply andb_true_iff in H as [_ H].
    apply andb_true_iff in H as [H _]. now apply negb_true_iff in H.
  - unfold PricingSpec.exactlyValid, PricingSpec.checks in H. simpl in H.
    do 6 apply andb_true_iff in H as [_ H].
    apply andb_true_iff in H as [H _]. now apply negb_true_iff in H.
  - intros (H1 & H2 & H3 & H4 & H5 & H6 & H7).
    unfold PricingSpec.exactlyValid, PricingSpec.checks. simpl.
    rewrite H1, H2, H3, H4, H5, H6, H7. reflexivity.
  - apply exactlyValid_no_discrepancy.
  - apply exactlyValid_no_discrepancy.
Qed.

Lemma validateOrderPricing_throws (items : list OrderItem.t)
    (p : OrderPricingService.OrderPricing) (e : Error) :
  OrderPricingService.calculateSubtotal items = Throw e \/
  (is_ok (OrderPricingService.calculateSubtotal items) = true /\
   PricingSpec.recomputedTotal p = Throw e) ->
  OrderPricingService.validateOrderPricing items p = Throw e.
Proof.
  unfold OrderPricingService.validateOrderPricing, PricingSpec.recomputedTotal, bind.
  intros [H|[Hok H]].
  - now rewrite H.
  - destruct (OrderPricingService.calculateSubtotal items) as [s|]; [|discriminate].
    destruct (Money.subtract _ _) as [a|]; [|congruence].
    destruct (Money.add a _) as [b|]; [|congruence].
    now rewrite H.
Qed.

(** C2, as the code has it. [validateOrderPricing] returns whenever the
    subtotal of the items and the total of the supplied breakdown can be
    recomputed; and when it returns, it returns valid exactly when the
    supplied subtotal and total are equal to the recomputed ones (the same
    amount and currency, no tolerance), the discount is not greater than
    the subtotal and none of the four components is negative; otherwise it
    returns invalid with one message per violated check. *)
Theorem validateOrderPricing_exact (items : list OrderItem.t)
    (p : OrderPricingService.OrderPricing) :
  (forall s t,
     OrderPricingService.calculateSubtotal items = Ok s ->
     PricingSpec.recomputedTotal p = Ok t ->
     OrderPricingService.validateOrderPricing items p
     = Ok (OrderPricingService.mkValidation (PricingSpec.exactlyValid p s t)
             (PricingSpec.discrepancies p s t))) /\
  (forall v,
     OrderPricingService.validateOrderPricing items p = Ok v ->
     exists s t,
       OrderPricingService.calculateSubtotal items = Ok s /\
       PricingSpec.recomputedTotal p = Ok t /\
       (OrderPricingService.isValid v = true <->
          Money.equals (OrderPricingService.subtotal p) s = true /\
          Money.equals (OrderPricingService.totalAmount p) t = true /\
          JS.gt (Money.amount (OrderPricingService.discountAmount p))
                (Money.amount (OrderPricingService.subtotal p)) = false /\
          JS.lt (Money.amount (OrderPricingService.subtotal p)) 0 = false /\
          JS.lt (Money.amount (OrderPricingService.discountAmount p)) 0 = false /\
          JS.lt (Money.amount (OrderPricingService.shippingFee p)) 0 = false /\
          JS.lt (Money.amount (OrderPricingService.taxAmount p)) 0 = false) /\
       OrderPricingService.errors v = PricingSpec.discrepancies p s t /\
       (OrderPricingService.isValid v = true <-> OrderPricingService.errors v = [])).
Proof.
  split.
  - intros s t. apply validateOrderPricing_returns.
  - intros v. apply validateOrderPricing_valid_iff.
Qed.

Lemma validateOrderPricing_exact_witness :
  OrderPricingService.calculateOrderPricing Scenario.cart200 Scenario.beijing (Some "SAVE10")
    = Ok Scenario.pricingA /\
  OrderPricingService.validateOrderPricing Scenario.cart200 Scenario.pricingA
    = Ok (OrderPricingService.mkValidation true []) /\
  exists s t,
    OrderPricingService.calculateSubtotal Scenario.cart200 = Ok s /\
    PricingSpec.recomputedTotal Scenario.pricingA = Ok t /\
    Money.equals (OrderPricingService.subtotal Scenario.pricingA) s = true /\
    Money.equals (OrderPricingService.totalAmount Scenario.pricingA) t = true.
Proof.
  assert (Hv : OrderPricingService.validateOrderPricing Scenario.cart200 Scenario.pricingA
               = Ok (OrderPricingService.mkValidation true []))
    by (vm_compute; reflexivity).
  split; [vm_compute; reflexivity|]. split; [exact Hv|].
  destruct (proj2 (validateOrderPricing_exact Scenario.cart200 Scenario.pricingA) _ Hv)
    as (s & t & Hs & Ht & [Hiff _] & _).
  exists s, t. destruct (Hiff eq_refl) as (H1 & H2 & _). auto.
Defined.

(** C2 as stated fails. For the items of scenario A and the breakdown
    200 - 20 + 8 + 0 with a supplied total of 188.01, every component is a
    valid amount, subtotal and total are within 0.01 of the recomputed
    200 and 188, nothing is negative and the discount is below the
    subtotal, yet the result is invalid with the total's message; and with
    a discount of 230 above the subtotal of 200 the call throws instead of
    returning invalid with a message. *)
Lemma validateOrderPricing_no_tolerance :
  Money.new 188.01%float CNY = Ok (Scenario.cny 188.01) /\
  PricingSpec.validWithinTolerance Scenario.cart200 Scenario.pricingA_off = true /\
  OrderPricingService.validateOrderPricing Scenario.cart200 Scenario.pricingA_off
    = Ok (OrderPricingService.mkValidation false ["总金额计算错误，期望: 188, 实际: 188.01"]) /\
  Money.new 230%float CNY = Ok (Scenario.cny 230) /\
  OrderPricingService.validateOrderPricing Scenario.cart200 Scenario.pricingA_overDiscount
    = Throw "减法结果不能为负数".
Proof. repeat split; vm_compute; reflexivity. Qed.


Lemma calculateTotalWeight_totalQuantity (items : list OrderItem.t) :
  OrderPricingService.calculateTotalWeight items = PricingSpec.totalQuantity items.
Proof. reflexivity. Qed.




(** Scenarios A and B, and an order above the threshold. *)
Example scenario_A_B :
  OrderPricingService.calculateOrderPricing Scenario.cart200 Scenario.beijing (Some "SAVE10")
    = Ok (OrderPricingService.mkPricing (Scenario.cny 200) (Scenario.cny 20) (Scenario.cny 8)
            (Scenario.cny 0) (Scenario.cny 188)) /\
  OrderPricingService.calculateOrderPricing Scenario.cart200 Scenario.chengdu (Some "SAVE10")
    = Ok (OrderPricingService.mkPricing (Scenario.cny 200) (Scenario.cny 20) (Scenario.cny 18)
            (Scenario.cny 0) (Scenario.cny 198)) /\
  OrderPricingService.calculateOrderPricing [Scenario.item100x3] Scenario.beijing None
    = Ok (OrderPricingService.mkPricing (Scenario.cny 300) (Scenario.cny 0) (Scenario.cny 0)
            (Scenario.cny 0) (Scenario.cny 300)).
Proof. repeat split; vm_compute; reflexivity. Qed.



(** ** Comparison of numbers *)

Lemma SFcompare_antisym (a b : spec_float) :
  SFcompare b a = option_map CompOpp (SFcompare a b).
Proof.
  destruct a as [sa|sa| |sa ma ea], b as [sb|sb| |sb mb eb]; simpl; try reflexivity;
    try (destruct sa; reflexivity); try (destruct sb; reflexivity);
    try (destruct sa, sb; reflexivity).
  assert (Hm : Pos.compare_cont Eq mb ma = CompOpp (Pos.compare_cont Eq ma mb))
    by (symmetry; apply (Pos.compare_cont_antisym ma mb Eq)).
  destruct sa, sb; simpl; try reflexivity.
  - rewrite (Z.compare_antisym ea eb), Hm.
    destruct (ea ?= eb)%Z; simpl; reflexivity.
  - rewrite (Z.compare_antisym ea eb), Hm.
    destruct (ea ?= eb)%Z; simpl; reflexivity.
Qed.

Lemma isNaN_false_Prim2SF (x : JS.number) :
  JS.isNaN x = false -> Prim2SF x <> S754_nan.
Proof.
  unfold JS.isNaN, PrimFloat.is_nan. rewrite FloatAxioms.eqb_spec. intros H Hn.
  rewrite Hn in H. discriminate H.
Qed.

Lemma SFcompare_None (a b : spec_float) :
  SFcompare a b = None -> a = S754_nan \/ b = S754_nan.
Proof.
  destruct a as [sa|sa| |sa ma ea], b as [sb|sb| |sb mb eb]; simpl; auto; discriminate.
Qed.

(** Of two numbers that are not NaN, the one not less than the other is
    greater than or equal to it. *)
Lemma not_lt_ge (x y : JS.number) :
  JS.isNaN x = false -> JS.isNaN y = false -> JS.lt y x = false -> JS.le x y = true.
Proof.
  intros Hx Hy. apply isNaN_false_Prim2SF in Hx. apply isNaN_false_Prim2SF in Hy.
  unfold JS.lt, JS.le. rewrite FloatAxioms.ltb_spec, FloatAxioms.leb_spec.
  unfold SFltb, SFleb.
  rewrite (SFcompare_antisym (Prim2SF x) (Prim2SF y)).
  destruct (SFcompare (Prim2SF x) (Prim2SF y)) as [[]|] eqn:Hc; simpl; try congruence.
  apply SFcompare_None in Hc. tauto.
Qed.

Lemma isNaN_zero : JS.isNaN 0%float = false.
Proof. reflexivity. Qed.

(** ** The inventory *)

Lemma Inventory_new_inv (q r m : JS.number) (i : Inventory.t) :
  Inventory.new q r m = Ok i -> i = Inventory.mk q r m /\ InventorySpec.validated i.
Proof.
  unfold Inventory.new, Inventory.validate, bind. simpl.
  destruct (JS.lt q 0) eqn:H1; [discriminate|].
  destruct (JS.lt r 0) eqn:H2; [discriminate|].
  destruct (JS.lt m 0) eqn:H3; [discriminate|].
  destruct (JS.gt r q) eqn:H4; [discriminate|].
  intros [= <-]. unfold InventorySpec.validated. simpl. auto.
Qed.

Lemma validated_bounded (i : Inventory.t) :
  InventorySpec.validated i -> InventorySpec.counted i -> InventorySpec.bounded i.
Proof.
  intros (_ & Hr & _ & Hq) (Nq & Nr). split.
  - apply not_lt_ge; [exact isNaN_zero|exact Nr|exact Hr].
  - apply not_lt_ge; assumption.
Qed.

(** Every [Inventory] that the constructor returns has no negative quantity
    and a reserved quantity that is not greater than the total, so that
    0 <= reservedQuantity <= quantity whenever the two are numbers and not
    NaN; and [reserve], [releaseReservation], [deduct] and [addStock] each
    throw or return an [Inventory] of which the same holds. *)
Theorem inventory_invariant :
  (forall q r m i, Inventory.new q r m = Ok i ->
     InventorySpec.validated i /\ (InventorySpec.counted i -> InventorySpec.bounded i)) /\
  (forall op i q,
     (exists e, InventorySpec.apply op i q = Throw e) \/
     (exists i', InventorySpec.apply op i q = Ok i' /\
        InventorySpec.validated i' /\ (InventorySpec.counted i' -> InventorySpec.bounded i'))).
Proof.
  assert (Hnew : forall q r m i, Inventory.new q r m = Ok i ->
            InventorySpec.validated i /\ (InventorySpec.counted i -> InventorySpec.bounded i)).
  { intros q r m i H. apply Inventory_new_inv in H as [_ H].
    split; [exact H|]. now apply validated_bounded. }
  split; [exact Hnew|].
  intros op i q.
  destruct (InventorySpec.apply op i q) as [i'|e] eqn:Ha; [right|left; eauto].
  exists i'. split; [reflexivity|].
  destruct op; simpl in Ha;
    unfold Inventory.reserve, Inventory.releaseReservation, Inventory.deduct,
      Inventory.addStock in Ha;
    repeat match type of Ha with
           | (if ?c then _ else _) = _ => destruct c; [discriminate|]
           end;
    exact (Hnew _ _ _ _ Ha).
Qed.

Lemma inventory_invariant_witness :
  Inventory.new 10%float 0%float 2%float = Ok (Inventory.mk 10%float 0%float 2%float) /\
  InventorySpec.bounded (Inventory.mk 10%float 0%float 2%float) /\
  Inventory.reserve (Inventory.mk 10%float 0%float 2%float) 3%float
    = Ok (Inventory.mk 10%float 3%float 2%float) /\
  Inventory.reserve (Inventory.mk 10%float 3%float 2%float) 8%float
    = Throw "库存不足，无法预留".
Proof.
  assert (Hn : Inventory.new 10%float 0%float 2%float
               = Ok (Inventory.mk 10%float 0%float 2%float)) by reflexivity.
  split; [exact Hn|]. split; [|split; reflexivity].
  apply (proj1 inventory_invariant _ _ _ _ Hn). split; reflexivity.
Defined.


(** ** The inventory service *)

(** The validation records a failure for every item, whatever the product
    found: the status of a product is never the string the service
    compares it with. *)
Lemma validateItem_always_fails (item : InventoryService.InventoryReservationItem)
    (product : option Product.t) :
  exists reason,
    InventoryService.validateItem item product
    = [InventoryService.mkInvalid (InventoryService.productId item)
         (InventoryService.productName item) (InventoryService.requestedQuantity item)
         0%float reason] /\
    (reason = "商品不存在" \/ reason = "商品已下架").
Proof.
  destruct product as [product|]; [|eexists; split; [reflexivity|auto]].
  exists "商品已下架". split; [|auto].
  unfold InventoryService.validateItem, Product.getStatus.
  destruct (Product.status product); reflexivity.
Qed.

Lemma validateLoop_reads_only (items : list InventoryService.InventoryReservationItem)
    (acc : list InventoryService.InvalidItem) (store : gmap string Product.t) :
  exists invalid,
    InventoryService.validateLoop items acc store = (Ok invalid, store) /\
    length invalid = (length acc + length items)%nat.
Proof.
  revert acc. induction items as [|item rest IH]; intros acc; simpl.
  - exists acc. split; [reflexivity|lia].
  - unfold bindM, InventoryService.findById.
    destruct (validateItem_always_fails item (store !! InventoryService.productId item))
      as (reason & -> & _).
    destruct (IH (acc ++ [InventoryService.mkInvalid (InventoryService.productId item)
                            (InventoryService.productName item)
                            (InventoryService.requestedQuantity item) 0%float reason])%list)
      as (invalid & Hl & Hn).
    exists invalid. split; [exact Hl|]. rewrite Hn, length_app. simpl. lia.
Qed.

(** Whatever the store holds, a batch that has an item is turned down by
    the validation, and the store is left as it was. *)
Lemma reserveInventoryBatch_never_reserves
    (items : list InventoryService.InventoryReservationItem) (now : Date)
    (store : gmap string Product.t) :
  items <> [] ->
  exists message, InventoryService.reserveInventoryBatch items now store = (Throw message, store).
Proof.
  intros Hne. unfold InventoryService.reserveInventoryBatch,
    InventoryService.validateInventoryAvailability.
  destruct (validateLoop_reads_only items [] store) as (invalid & Hl & Hn).
  unfold bindM at 1. unfold bindM at 1. rewrite Hl. unfold ret at 1. simpl InventoryService.isValid.
  destruct invalid as [|x invalid].
  - destruct items; [congruence|simpl in Hn; lia].
  - simpl. eexists. reflexivity.
Qed.

(** C6 fails on the code. With one product in the store, active and with
    one unit available, a batch asking for five units of it is invalid for
    its stock, yet the reason in the error is that the product is off the
    shelves; and a batch asking for one unit, of which no item is invalid,
    is turned down with the same reason.  In both cases nothing is
    reserved: the store is left as it was. *)
Theorem reserveInventoryBatch_wrong_reason :
  Inventory.new 1%float 0%float 0%float = Ok (Product.inventory Scenario.chair) /\
  Product.status Scenario.chair = ProductStatus.ACTIVE /\
  ReservationSpec.failure Scenario.store Scenario.chair5
    = Some "库存不足，可用库存：1，需要：5" /\
  InventoryService.reserveInventoryBatch [Scenario.chair5] 1734220800000%Z Scenario.store
    = (Throw ("库存验证失败：" ++ String "010" "chair: 商品已下架"), Scenario.store) /\
  ReservationSpec.failure Scenario.store Scenario.chair1 = None /\
  InventoryService.reserveInventoryBatch [Scenario.chair1] 1734220800000%Z Scenario.store
    = (Throw ("库存验证失败：" ++ String "010" "chair: 商品已下架"), Scenario.store).
Proof. repeat split; vm_compute; reflexivity. Qed.

(** ** The checkout *)

(** The release of the reservation in the handler never throws. *)
Lemma releaseReservedInventory_swallows {W Cart CartItem Product : Type}
    (deps : CreateOrderCommand.Collaborators W Cart CartItem Product)
    (items : list InventoryService.InventoryReservationItem) (w : W) :
  CreateOrderCommand.releaseReservedInventory deps items w
  = (Ok tt,
     match CreateOrderCommand.inventoryService_releaseReservedInventoryBatch deps
             (map (fun item =>
                     InventoryService.mkRelease (InventoryService.productId item)
                       (InventoryService.requestedQuantity item)) items) w with
     | (Ok _, w') => w'
     | (Throw e', w') => CreateOrderCommand.console_error deps "释放库存失败:" e' w'
     end).
Proof.
  unfold CreateOrderCommand.releaseReservedInventory, try_catch.
  destruct (CreateOrderCommand.inventoryService_releaseReservedInventoryBatch deps _ w)
    as [[[]|e'] w']; reflexivity.
Qed.



(** Whichever step of the [try] block fails, the checkout throws the error
    of that step, and the last two calls are the release of the batch and
    the report of its failure. *)
Example checkout_compensation_every_step (failing : Scenario.Step) :
  exists log,
    CreateOrderCommand.execute (Scenario.depsFailing failing) Scenario.request []
    = (Throw (Scenario.errorOf failing),
       (log ++ ["releaseReservedInventoryBatch"; "释放库存失败: connection lost"])%list).
Proof.
  destruct failing.
  - exists ["cart.findByUserId u1"; "reserveInventoryBatch"; "createOrderItems"].
    vm_compute; reflexivity.
  - exists ["cart.findByUserId u1"; "reserveInventoryBatch"; "createOrderItems"].
    vm_compute; reflexivity.
  - exists ["cart.findByUserId u1"; "reserveInventoryBatch"; "createOrderItems"].
    vm_compute; reflexivity.
  - exists ["cart.findByUserId u1"; "reserveInventoryBatch"; "createOrderItems"; "order.save"].
    vm_compute; reflexivity.
  - exists ["cart.findByUserId u1"; "reserveInventoryBatch"; "createOrderItems"; "order.save";
            "cart.save"].
    vm_compute; reflexivity.
  - exists ["cart.findByUserId u1"; "reserveInventoryBatch"; "createOrderItems"; "order.save";
            "cart.save"; "eventBus.publishAll"].
    vm_compute; reflexivity.
Qed.

(** With no failing step the checkout of scenario A answers the order and
    its pricing. *)
Example checkout_success :
  CreateOrderCommand.execute
    (CreateOrderCommand.mkCollaborators (list string) (list Scenario.CartLine)
       Scenario.CartLine unit
       (fun s => Ok s) (fun s => Ok s) (fun line => Ok (fst (fst line)))
       (fun line => snd (fst line)) (fun line => snd line)
       (fun cart => match cart with [] => true | _ => false end)
       (fun cart => cart) (fun _ => [])
       (fun cart => Scenario.logged "cart.publish" (Ok cart))
       (fun id => Scenario.logged "cart.findById" (Ok (Some Scenario.cartLines)))
       (fun id => Scenario.logged "cart.findByUserId" (Ok (Some Scenario.cartLines)))
       (fun _ => Scenario.logged "cart.save" (Ok tt))
       (fun _ => Scenario.logged "order.save" (Ok tt))
       (fun _ => Scenario.logged "eventBus.publishAll" (Ok tt))
       (fun items => Scenario.logged "reserveInventoryBatch" (Ok (map (fun _ => tt) items)))
       (fun _ => Scenario.logged "releaseReservedInventoryBatch" (Ok tt))
       OrderPricingService.calculateOrderPricing
       (fun _ _ => Scenario.logged "createOrderItems" (Ok Scenario.cart200))
       (fun _ => Ok Scenario.beijing)
       (ret Scenario.generatedA)
       (fun label error w => w))
    Scenario.request []
  = (Ok (CreateOrderCommand.mkResponse "o1" "20241215123456"
           (188%float, CNY) (200%float, CNY) (20%float, CNY) (8%float, CNY) (0%float, CNY)),
     ["cart.findByUserId"; "reserveInventoryBatch"; "createOrderItems"; "order.save";
      "cart.save"; "eventBus.publishAll"; "cart.publish"]).
Proof. vm_compute; reflexivity. Qed.

(** ** Money arithmetic *)

(** C10. Money addition is not total on valid values: 0.1 CNY and 0.2 CNY
    are both constructed, are not negative, have one decimal place and the
    same currency, yet their [add] throws the precision error, because the
    floating-point sum prints as 0.30000000000000004, with 17 decimal
    places, and the constructor validates the sum as it is.  [add] never
    rounds: when it returns, the amount is the floating-point sum.
    [multiply] and [divide] round to two decimals before they construct,
    and return 0.3 CNY from 0.1 * 3 and from 0.9 / 3. *)
Theorem money_add_not_total :
  (exists a b : Money.t,
     Money.new 0.1%float CNY = Ok a /\ Money.new 0.2%float CNY = Ok b /\
     JS.lt (Money.amount a) 0 = false /\ JS.lt (Money.amount b) 0 = false /\
     (Money.decimalPlaces (Money.amount a) <= 2)%nat /\
     (Money.decimalPlaces (Money.amount b) <= 2)%nat /\
     Money.currency a = Money.currency b /\
     JS.toString (Money.amount a + Money.amount b)%float = "0.30000000000000004" /\
     Money.decimalPlaces (Money.amount a + Money.amount b)%float = 17%nat /\
     Money.add a b = Throw "金额精度最多2位小数" /\
     Money.multiply a 3%float = Ok (Money.mk 0.3%float CNY) /\
     Money.divide (Money.mk 0.9%float CNY) 3%float = Ok (Money.mk 0.3%float CNY)) /\
  (forall x y r, Money.add x y = Ok r ->
     Money.amount r = (Money.amount x + Money.amount y)%float) /\
  (forall x f r, Money.multiply x f = Ok r ->
     Money.amount r = (JS.Math_round (Money.amount x * f * 100) / 100)%float) /\
  (forall x d r, Money.divide x d = Ok r ->
     Money.amount r = (JS.Math_round (Money.amount x / d * 100) / 100)%float).
Proof.
  split; [|split; [|split]].
  - exists (Money.mk 0.1%float CNY), (Money.mk 0.2%float CNY).
    repeat split; try (vm_compute; reflexivity).
    all: vm_compute; lia.
  - intros x y r H. apply Money_add_inv in H as [-> _]. reflexivity.
  - intros x f r. unfold Money.multiply. destruct (JS.lt f 0); [discriminate|].
    intros H. apply Money_new_inv in H as [-> _]. reflexivity.
  - intros x d r. unfold Money.divide. destruct (JS.le d 0); [discriminate|].
    intros H. apply Money_new_inv in H as [-> _]. reflexivity.
Qed.

(** * Further theorems *)

(** ** Numbers *)

Lemma isFinite_not_NaN (x : JS.number) : JS.isFinite x = true -> JS.isNaN x = false.
Proof.
  unfold JS.isFinite, JS.isNaN. intros H. apply andb_true_iff in H as [H _].
  now apply negb_true_iff in H.
Qed.

Lemma strict_eq_refl (x : JS.number) : JS.isNaN x = false -> JS.strict_eq x x = true.
Proof.
  unfold JS.isNaN, PrimFloat.is_nan, JS.strict_eq. intros H.
  now apply negb_false_iff in H.
Qed.




(** ** Money *)

Lemma Money_validate_valid (m : Money.t) : Money.validate m = Ok tt <-> MoneySpec.valid m.
Proof.
  unfold Money.validate, MoneySpec.valid. split.
  - destruct (JS.lt (Money.amount m) 0); [discriminate|].
    destruct (JS.isFinite (Money.amount m)); simpl; [|discriminate].
    destruct (2 <? Money.decimalPlaces (Money.amount m))%nat eqn:Hd; [discriminate|].
    apply Nat.ltb_ge in Hd. auto.
  - intros (H1 & H2 & H3). rewrite H1, H2. simpl.
    apply Nat.ltb_ge in H3. now rewrite H3.
Qed.

Lemma Money_new_valid (a : JS.number) (c : Currency) (m : Money.t) :
  Money.new a c = Ok m -> MoneySpec.valid m.
Proof. intros H. apply Money_new_inv in H as [_ H]. now apply Money_validate_valid. Qed.

Lemma Money_valid_equals_refl (m : Money.t) : MoneySpec.valid m -> Money.equals m m = true.
Proof.
  intros (_ & Hf & _). unfold Money.equals.
  rewrite (strict_eq_refl _ (isFinite_not_NaN _ Hf)). simpl.
  now apply Currency_eqb_eq.
Qed.


Lemma Money_subtract_valid (x y m : Money.t) : Money.subtract x y = Ok m -> MoneySpec.valid m.
Proof.
  unfold Money.subtract. destruct (negb _); [discriminate|].
  destruct (JS.lt _ _); [discriminate|]. apply Money_new_valid.
Qed.


Lemma Money_zero_valid (c : Currency) : MoneySpec.valid (Money.mk 0%float c).
Proof. apply (Money_new_valid 0%float c). reflexivity. Qed.

(** X1. Every [Money] that the constructor, [zero], [add], [subtract],
    [multiply] or [divide] returns has an amount that is not negative, is
    finite and prints with at most two decimal places, and is equal to
    itself; the result keeps the currency of the receiver. *)
Theorem money_results_valid :
  (forall a c m, Money.new a c = Ok m ->
     MoneySpec.valid m /\ Money.equals m m = true /\ Money.currency m = c) /\
  (forall c, exists m, Money.zero c = Ok m /\ MoneySpec.valid m /\ Money.isZero m = true /\
                       Money.currency m = c) /\
  (forall x y m, Money.add x y = Ok m ->
     MoneySpec.valid m /\ Money.equals m m = true /\ Money.currency m = Money.currency x) /\
  (forall x y m, Money.subtract x y = Ok m ->
     MoneySpec.valid m /\ Money.equals m m = true /\ Money.currency m = Money.currency x) /\
  (forall x f m, Money.multiply x f = Ok m ->
     MoneySpec.valid m /\ Money.equals m m = true /\ Money.currency m = Money.currency x) /\
  (forall x d m, Money.divide x d = Ok m ->
     MoneySpec.valid m /\ Money.equals m m = true /\ Money.currency m = Money.currency x).
Proof.
  assert (Hn : forall a c m, Money.new a c = Ok m ->
            MoneySpec.valid m /\ Money.equals m m = true /\ Money.currency m = c).
  { intros a c m H. pose proof (Money_new_valid _ _ _ H) as Hv.
    split; [exact Hv|]. split; [now apply Money_valid_equals_refl|].
    apply Money_new_inv in H as [-> _]. reflexivity. }
  split; [exact Hn|]. split; [|split; [|split; [|split]]].
  - intros c. exists (Money.mk 0%float c).
    repeat split; try reflexivity; apply Money_zero_valid.
  - intros x y m. unfold Money.add. destruct (negb _); [discriminate|]. apply Hn.
  - intros x y m. unfold Money.subtract. destruct (negb _); [discriminate|].
    destruct (JS.lt _ _); [discriminate|]. apply Hn.
  - intros x f m. unfold Money.multiply. destruct (JS.lt f 0); [discriminate|]. apply Hn.
  - intros x d m. unfold Money.divide. destruct (JS.le d 0); [discriminate|]. apply Hn.
Qed.

(** X2. Between amounts of different currencies [add] and [subtract] throw
    the currency error, [isGreaterThan] and [isLessThan] throw theirs, and
    [equals] answers false, whatever the amounts. *)
Theorem money_mixed_currencies (x y : Money.t) :
  Money.currency x <> Money.currency y ->
  Money.add x y = Throw "不能对不同货币进行运算" /\
  Money.subtract x y = Throw "不能对不同货币进行运算" /\
  Money.isGreaterThan x y = Throw "不能比较不同货币" /\
  Money.isLessThan x y = Throw "不能比较不同货币" /\
  Money.equals x y = false.
Proof.
  intros Hc.
  assert (He : Currency_eqb (Money.currency x) (Money.currency y) = false).
  { destruct (Currency_eqb _ _) eqn:E; [|reflexivity]. apply Currency_eqb_eq in E. contradiction. }
  unfold Money.add, Money.subtract, Money.isGreaterThan, Money.isLessThan, Money.equals.
  rewrite He. simpl. rewrite andb_false_r. auto.
Qed.

Lemma money_mixed_currencies_witness :
  Money.new 5%float CNY = Ok (Money.mk 5%float CNY) /\
  Money.new 5%float USD = Ok (Money.mk 5%float USD) /\
  Money.add (Money.mk 5%float CNY) (Money.mk 5%float USD) = Throw "不能对不同货币进行运算" /\
  Money.equals (Money.mk 5%float CNY) (Money.mk 5%float USD) = false.
Proof.
  split; [reflexivity|]. split; [reflexivity|].
  assert (H : Money.currency (Money.mk 5%float CNY) <> Money.currency (Money.mk 5%float USD))
    by (simpl; discriminate).
  destruct (money_mixed_currencies _ _ H) as (Ha & _ & _ & _ & He). auto.
Defined.

(** ** Order items *)




(** ** The order lifecycle *)

Ltac order_fields o :=
  let id := fresh "id" in
  let p := fresh "p" in
  let events := fresh "events" in
  destruct o as [id p events];
  destruct p as [num cust items sa ba sub disc fee tax tot pm st pst sst od pa sha da notes md].

(** A lifecycle call that succeeds held its precondition, leaves its target
    status, appends its events and writes nothing else of the order. *)
Lemma run_ok_inv (c : OrderSpec.Call) (now : Date) (o o' : Order.t) :
  OrderSpec.run c now o = (Ok tt, o') ->
  OrderSpec.precondition c o /\
  Order.getStatus o' = LifecycleSpec.targetStatus c /\
  Order.domainEvents o' = (Order.domainEvents o ++ LifecycleSpec.emitted c now o)%list /\
  LifecycleSpec.sameOrder o o'.
Proof.
  order_fields o.
  unfold OrderSpec.precondition, Order.getStatus, Order.getPaymentStatus,
    LifecycleSpec.sameOrder.
  destruct c; destruct st; destruct pst; simpl; intros H; try discriminate H;
    injection H as <-; simpl; rewrite ?app_nil_r;
    repeat split; congruence.
Qed.

Lemma precondition_run_ok (c : OrderSpec.Call) (now : Date) (o : Order.t) :
  OrderSpec.precondition c o -> exists o', OrderSpec.run c now o = (Ok tt, o').
Proof.
  order_fields o.
  unfold OrderSpec.precondition, Order.getStatus, Order.getPaymentStatus. simpl.
  destruct c; destruct st; destruct pst; simpl; intros H;
    try (eexists; reflexivity); exfalso; intuition congruence.
Qed.

Lemma Order_create_inv g customerId items shippingAddress billingAddress paymentMethod
    shippingFee taxAmount discountAmount notes metadata o :
  Order.create g customerId items shippingAddress billingAddress paymentMethod
    shippingFee taxAmount discountAmount notes metadata = Ok o ->
  Order.validate (Order.props o) = Ok tt /\
  Order.id o = Order.g_id g /\
  Order.customerId (Order.props o) = customerId /\
  Order.items (Order.props o) = items /\
  Order.status (Order.props o) = OrderStatus.PENDING /\
  Order.paymentStatus (Order.props o) = PaymentStatus.PENDING /\
  Order.shippingStatus (Order.props o) = ShippingStatus.PENDING /\
  Order.paidAt (Order.props o) = None /\
  Order.shippedAt (Order.props o) = None /\
  Order.deliveredAt (Order.props o) = None.
Proof.
  unfold Order.create, bind.
  destruct (Order.defaultAmount items shippingFee) as [sf'|]; [|discriminate].
  destruct (Order.defaultAmount items taxAmount) as [tax'|]; [|discriminate].
  destruct (Order.defaultAmount items discountAmount) as [disc'|]; [|discriminate].
  destruct items as [|i rest]; [discriminate|].
  destruct (Order.calculateSubtotalFromItems (i :: rest)) as [s|]; [|discriminate].
  destruct (Money.subtract s disc') as [a|]; [|discriminate].
  destruct (Money.add a sf') as [b|]; [|discriminate].
  destruct (Money.add b tax') as [t|]; [|discriminate].
  unfold Order.new, bind.
  destruct (Order.validate _) as [[]|] eqn:Hv; [|discriminate].
  intros [= <-]. simpl. repeat split. exact Hv.
Qed.

Lemma run_keeps_validate (c : OrderSpec.Call) (now : Date) (o o' : Order.t) :
  Order.validate (Order.props o) = Ok tt ->
  OrderSpec.run c now o = (Ok tt, o') ->
  Order.validate (Order.props o') = Ok tt.
Proof.
  order_fields o. unfold Order.validate, Order.calculateSubtotal. simpl.
  intros Hv Hrun.
  destruct (String.eqb cust "") eqn:Hc; [discriminate|].
  destruct items as [|i rest] eqn:Hi; [discriminate|]. rewrite <- Hi in *.
  unfold bind in *.
  destruct (Order.calculateSubtotalFromItems items) as [s|] eqn:Hs; [|discriminate].
  destruct (negb (Money.equals sub s)) eqn:He; [discriminate|].
  destruct (Money.subtract sub disc) as [a|] eqn:Ha; [|discriminate].
  destruct (Money.add a fee) as [b|] eqn:Hb; [|discriminate].
  destruct (Money.add b tax) as [t|] eqn:Ht; [|discriminate].
  destruct (negb (Money.equals tot t)) eqn:He'; [discriminate|].
  destruct c; destruct st; destruct pst; simpl in Hrun; try discriminate Hrun;
    injection Hrun as <-; simpl; rewrite Hc, Hi, <- Hi, Hs, He, Ha, Hb, Ht, He';
    reflexivity.
Qed.

Lemma run_keeps_coherent (c : OrderSpec.Call) (now : Date) (o o' : Order.t) :
  LifecycleSpec.coherent (Order.props o) ->
  OrderSpec.run c now o = (Ok tt, o') ->
  LifecycleSpec.coherent (Order.props o').
Proof.
  order_fields o. unfold LifecycleSpec.coherent, LifecycleSpec.trail. simpl.
  intros Hco Hrun.
  destruct c; destruct st; destruct pst; simpl in Hrun; try discriminate Hrun;
    injection Hrun as <-; simpl; destruct sst; intuition congruence.
Qed.

Lemma reachable_coherent (o : Order.t) :
  LifecycleSpec.reachable o -> LifecycleSpec.coherent (Order.props o).
Proof.
  induction 1 as [g customerId items sa ba pm sf tax disc notes md o H | c now o o' _ IH Hrun].
  - apply Order_create_inv in H as (_ & _ & _ & _ & Hs & Hp & Hsh & Hpa & Hsa & Hda).
    unfold LifecycleSpec.coherent, LifecycleSpec.trail. rewrite Hs, Hp, Hsh. auto.
  - exact (run_keeps_coherent c now o o' IH Hrun).
Qed.

Lemma reachable_validate (o : Order.t) :
  LifecycleSpec.reachable o -> Order.validate (Order.props o) = Ok tt.
Proof.
  induction 1 as [g customerId items sa ba pm sf tax disc notes md o H | c now o o' _ IH Hrun].
  - now apply Order_create_inv in H.
  - exact (run_keeps_validate c now o o' IH Hrun).
Qed.

Lemma scenario_reachable :
  LifecycleSpec.reachable Scenario.orderA /\ LifecycleSpec.reachable Scenario.paidA /\
  LifecycleSpec.reachable Scenario.refundedA /\ LifecycleSpec.reachable Scenario.shippedA.
Proof.
  assert (Ha : LifecycleSpec.reachable Scenario.orderA).
  { apply (LifecycleSpec.reachable_create Scenario.generatedA "u1" Scenario.cart200
             Scenario.beijing Scenario.beijing ALIPAY (Some (Scenario.cny 8))
             (Some (Scenario.cny 0)) (Some (Scenario.cny 20)) None Scenario.noMetadata).
    vm_compute. reflexivity. }
  assert (Hp : LifecycleSpec.reachable Scenario.paidA).
  { apply (LifecycleSpec.reachable_step (OrderSpec.Pay "pay-1") 1734221000000%Z
             Scenario.orderA); [exact Ha | reflexivity]. }
  split; [exact Ha|]. split; [exact Hp|]. split.
  - apply (LifecycleSpec.reachable_step OrderSpec.Refund 0%Z Scenario.paidA);
      [exact Hp | reflexivity].
  - apply (LifecycleSpec.reachable_step (OrderSpec.Ship "s1" "SF123" "SF") 1734250000000%Z
             (snd (Order.startProcessing Scenario.paidA))); [|reflexivity].
    apply (LifecycleSpec.reachable_step OrderSpec.StartProcessing 0%Z Scenario.paidA);
      [exact Hp | reflexivity].
Defined.

(** X4. The transition table of the order.  A lifecycle call succeeds
    exactly when the order meets the call's precondition; when it succeeds
    the order has the call's target status, the call's events are appended
    to the pending ones, and identifier, order number, customer, items,
    addresses, amounts, payment method, order date, notes and metadata are
    as before. *)
Theorem lifecycle_transitions (c : OrderSpec.Call) (now : Date) (o : Order.t) :
  (OrderSpec.precondition c o <-> exists o', OrderSpec.run c now o = (Ok tt, o')) /\
  (forall o', OrderSpec.run c now o = (Ok tt, o') ->
     Order.getStatus o' = LifecycleSpec.targetStatus c /\
     Order.domainEvents o' = (Order.domainEvents o ++ LifecycleSpec.emitted c now o)%list /\
     LifecycleSpec.sameOrder o o').
Proof.
  split; [split|].
  - apply precondition_run_ok.
  - intros [o' H]. now apply run_ok_inv in H.
  - intros o' H. now apply run_ok_inv in H.
Qed.

(** X5. A lifecycle call that succeeds on an order whose properties pass
    the constructor's validation leaves properties that pass it again: the
    order can be reconstituted from them, and the aggregate invariant
    holds. *)
Theorem lifecycle_keeps_valid (c : OrderSpec.Call) (now : Date) (o o' : Order.t) :
  Order.validate (Order.props o) = Ok tt ->
  OrderSpec.run c now o = (Ok tt, o') ->
  Order.reconstitute (Order.props o') (Order.id o')
    = Ok (Order.mk (Order.id o') (Order.props o') []) /\
  OrderSpec.invariant (Order.props o').
Proof.
  intros Hv Hrun. pose proof (run_keeps_validate c now o o' Hv Hrun) as Hv'.
  split.
  - unfold Order.reconstitute, Order.new. now rewrite Hv'.
  - now apply Order_validate_inv in Hv'.
Qed.

Lemma lifecycle_keeps_valid_witness :
  Order.reconstitute (Order.props Scenario.paidA) (Order.id Scenario.paidA)
    = Ok (Order.mk (Order.id Scenario.paidA) (Order.props Scenario.paidA) []) /\
  OrderSpec.invariant (Order.props Scenario.paidA).
Proof.
  apply (lifecycle_keeps_valid (OrderSpec.Pay "pay-1") 1734221000000%Z Scenario.orderA).
  - vm_compute. reflexivity.
  - reflexivity.
Defined.

(** X6. Every order that [create] returns, and every order a sequence of
    successful lifecycle calls leads to from one, has order, payment and
    shipping status and timestamps that go together: a pending order is
    unpaid and unshipped; a paid, processing, shipped, delivered or
    completed order has a completed payment with its date and the shipping
    status of its stage; a refunded order was paid; the shipping and
    delivery dates are set exactly from shipment and delivery on.  Its
    properties pass the constructor's validation. *)
Theorem reachable_orders_coherent (o : Order.t) :
  LifecycleSpec.reachable o ->
  LifecycleSpec.coherent (Order.props o) /\
  Order.validate (Order.props o) = Ok tt /\
  (Order.isPaid o = true <-> Order.paidAt (Order.props o) <> None /\
                             Order.getPaymentStatus o <> PaymentStatus.REFUNDED).
Proof.
  intros H. pose proof (reachable_coherent o H) as Hco.
  split; [exact Hco|]. split; [now apply reachable_validate|].
  order_fields o.
  unfold LifecycleSpec.coherent, LifecycleSpec.trail, Order.isPaid, Order.is_paymentStatus,
    Order.getPaymentStatus in *.
  simpl in *. destruct st; destruct pst; simpl; intuition congruence.
Qed.

Lemma reachable_orders_coherent_witness :
  LifecycleSpec.coherent (Order.props Scenario.shippedA) /\
  Order.validate (Order.props Scenario.shippedA) = Ok tt /\
  (Order.isPaid Scenario.shippedA = true <->
   Order.paidAt (Order.props Scenario.shippedA) <> None /\
   Order.getPaymentStatus Scenario.shippedA <> PaymentStatus.REFUNDED).
Proof.
  apply (reachable_orders_coherent Scenario.shippedA).
  exact (proj2 (proj2 (proj2 scenario_reachable))).
Defined.

(** X7. A cancelled or refunded order is final.  On an order reached from
    [create] whose status is CANCELLED or REFUNDED no call but [cancel]
    succeeds; [cancel] leaves it CANCELLED with the payment status it had,
    and [canRefund] is false before and after: no order is refunded
    twice, and none is paid, processed, shipped or delivered after it was
    cancelled or refunded. *)
Theorem cancelled_refunded_final (c : OrderSpec.Call) (now : Date) (o o' : Order.t) :
  LifecycleSpec.reachable o ->
  Order.getStatus o = OrderStatus.CANCELLED \/ Order.getStatus o = OrderStatus.REFUNDED ->
  OrderSpec.run c now o = (Ok tt, o') ->
  (exists reason, c = OrderSpec.Cancel reason) /\
  Order.getStatus o' = OrderStatus.CANCELLED /\
  Order.getPaymentStatus o' = Order.getPaymentStatus o /\
  Order.canRefund o = false /\ Order.canRefund o' = false.
Proof.
  intros Hr Hst Hrun. apply reachable_coherent in Hr.
  order_fields o.
  unfold LifecycleSpec.coherent, LifecycleSpec.trail, Order.getStatus,
    Order.getPaymentStatus, Order.canRefund, Order.is_paymentStatus in *.
  simpl in *.
  destruct Hst as [-> | ->]; destruct pst; try (exfalso; intuition congruence);
    destruct c; simpl in Hrun; try discriminate Hrun;
    injection Hrun as <-; simpl; repeat split; eauto.
Qed.

Lemma cancelled_refunded_final_witness :
  (exists reason, OrderSpec.Cancel "no longer needed" = OrderSpec.Cancel reason) /\
  Order.getStatus (snd (Order.cancel "no longer needed" 1734300000000%Z Scenario.refundedA))
    = OrderStatus.CANCELLED /\
  Order.getPaymentStatus (snd (Order.cancel "no longer needed" 1734300000000%Z
                                 Scenario.refundedA))
    = Order.getPaymentStatus Scenario.refundedA /\
  Order.canRefund Scenario.refundedA = false /\
  Order.canRefund (snd (Order.cancel "no longer needed" 1734300000000%Z Scenario.refundedA))
    = false.
Proof.
  apply (cancelled_refunded_final (OrderSpec.Cancel "no longer needed") 1734300000000%Z
           Scenario.refundedA).
  - exact (proj1 (proj2 (proj2 scenario_reachable))).
  - right. reflexivity.
  - reflexivity.
Defined.

(** X8. [canRefund] and [isPaid] answer true exactly when [refund] would
    succeed.  [canCancel] is stricter than [cancel]: wherever it answers
    true [cancel] succeeds, and the orders on which [cancel] succeeds
    although [canCancel] answers false are the cancelled ones. *)
Theorem can_predicates (reason : string) (now : Date) (o : Order.t) :
  (Order.canRefund o = true <-> exists o', Order.refund o = (Ok tt, o')) /\
  Order.isPaid o = Order.canRefund o /\
  (Order.canCancel o = true -> exists o', Order.cancel reason now o = (Ok tt, o')) /\
  ((exists o', Order.cancel reason now o = (Ok tt, o')) /\ Order.canCancel o = false <->
   Order.getStatus o = OrderStatus.CANCELLED).
Proof.
  order_fields o. unfold Order.getStatus.
  split; [|split; [reflexivity|split]].
  - destruct pst; simpl; split; intros H; try discriminate H; try reflexivity;
      try (eexists; reflexivity); destruct H as [o' H]; discriminate H.
  - destruct st; simpl; intros H; try discriminate H; eexists; reflexivity.
  - destruct st; simpl; split; try (intros [[o' H] H']; try discriminate H; discriminate H');
      try (intros H; discriminate H); try reflexivity.
    intros _. split; [eexists; reflexivity | reflexivity].
Qed.

(** X9. [hasItem] answers true exactly when [getItem] finds an item; the
    item found is the first of the order's items for that product. *)
Theorem hasItem_getItem (o : Order.t) (productId : string) :
  (Order.hasItem o productId = true <-> exists i, Order.getItem o productId = Some i) /\
  (forall i, Order.getItem o productId = Some i ->
     OrderItem.getProductId i = productId /\
     exists before after,
       Order.items (Order.props o) = (before ++ i :: after)%list /\
       forall j, In j before -> OrderItem.getProductId j <> productId).
Proof.
  unfold Order.hasItem, Order.getItem.
  induction (Order.items (Order.props o)) as [|x rest [IH1 IH2]]; simpl.
  - split; [split; [discriminate | intros [i H]; discriminate]|discriminate].
  - destruct (String.eqb (OrderItem.getProductId x) productId) eqn:Hx; simpl.
    + split; [split; eauto|].
      intros i [= <-]. apply String.eqb_eq in Hx. split; [exact Hx|].
      exists [], rest. split; [reflexivity|]. intros j [].
    + split; [exact IH1|].
      intros i Hi. destruct (IH2 i Hi) as (Hp & before & after & -> & Hb).
      split; [exact Hp|]. exists (x :: before), after. split; [reflexivity|].
      intros j [<- | Hj]; [now apply String.eqb_neq in Hx | now apply Hb].
Qed.

(** ** The pricing service *)



















(** ** The search for the best coupon *)









(** ** Products *)

Ltac product_fields p :=
  let id := fresh "id" in
  let name := fresh "name" in
  let inv := fresh "inv" in
  let st := fresh "st" in
  let at' := fresh "updated" in
  let events := fresh "events" in
  destruct p as [id name inv st at' events].

(** What an operation does to the status and the inventory of a product:
    on failure nothing, on success the identifier and the name stay. *)
Lemma Product_run_inv (op : ProductSpec.Operation) (now : Date) (p p' : Product.t)
    (r : result unit) :
  ProductSpec.run op now p = (r, p') ->
  match r with
  | Throw _ => p' = p
  | Ok _ => Product.id p' = Product.id p /\ Product.name p' = Product.name p
  end.
Proof.
  product_fields p. destruct op as [q|q|q|q|s]; simpl;
    unfold Product.reserveInventory, Product.releaseInventory, Product.deductInventory,
      Product.addStock, Product.updateStatus, Product.markAsOutOfStock, Product.activate,
      Product.updateStatus, bindM, get, when, throw, ret, lift, modify; simpl.
  - destruct st; simpl; try (intros [= <- <-]; reflexivity).
    destruct (Inventory.reserve inv q) as [inv'|e]; [|intros [= <- <-]; reflexivity].
    destruct (Inventory.isInStock inv'); simpl; intros [= <- <-]; auto.
  - destruct (Inventory.releaseReservation inv q) as [inv'|e]; [|intros [= <- <-]; reflexivity].
    destruct st; simpl; try (intros [= <- <-]; auto).
    destruct (Inventory.isInStock inv') eqn:Hs; simpl; [rewrite Hs; simpl|];
      intros [= <- <-]; auto.
  - destruct (Inventory.deduct inv q) as [inv'|e]; [|intros [= <- <-]; reflexivity].
    destruct (Inventory.isInStock inv'); simpl; [intros [= <- <-]; auto|].
    destruct st; simpl; intros [= <- <-]; auto.
  - destruct (Inventory.addStock inv q) as [inv'|e]; [|intros [= <- <-]; reflexivity].
    destruct st; simpl; try (intros [= <- <-]; auto).
    destruct (Inventory.isInStock inv') eqn:Hs; simpl; [rewrite Hs; simpl|];
      intros [= <- <-]; auto.
  - destruct (ProductStatus.eqb st s); simpl; [intros [= <- <-]; auto|].
    destruct (ProductStatus.eqb s ProductStatus.ACTIVE && negb (Inventory.isInStock inv));
      simpl; intros [= <- <-]; auto.
Qed.

(** X16. An operation on a product that throws changes nothing.  When
    [reserveInventory], [releaseInventory], [deductInventory], [addStock]
    or [updateStatus] throws, inventory, status, modification date and
    pending events of the product are as before the call; when it
    returns, the product keeps its identifier and its name. *)
Theorem product_operation_atomic (op : ProductSpec.Operation) (now : Date)
    (p p' : Product.t) :
  ((exists e, ProductSpec.run op now p = (Throw e, p')) -> p' = p) /\
  (ProductSpec.run op now p = (Ok tt, p') ->
   Product.id p' = Product.id p /\ Product.name p' = Product.name p).
Proof.
  split.
  - intros [e H]. exact (Product_run_inv op now p p' (Throw e) H).
  - intros H. exact (Product_run_inv op now p p' (Ok tt) H).
Qed.

(** X17. No product is left active without stock by a reservation, a
    deduction or a change of status.  When the product was not active
    without available stock before, and [reserveInventory],
    [deductInventory] or [updateStatus] returns, the product is not active
    without available stock after: a reservation or deduction that uses up
    the stock marks it out of stock, and it cannot be activated while
    nothing is available. *)
Theorem active_product_in_stock (op : ProductSpec.Operation) (now : Date)
    (p p' : Product.t) :
  ProductSpec.restocks op = false ->
  ProductSpec.activeInStock p ->
  ProductSpec.run op now p = (Ok tt, p') ->
  ProductSpec.activeInStock p'.
Proof.
  unfold ProductSpec.activeInStock. product_fields p.
  destruct op as [q|q|q|q|s]; try discriminate; intros _; simpl;
    unfold Product.reserveInventory, Product.deductInventory, Product.updateStatus,
      Product.markAsOutOfStock, Product.updateStatus, bindM, get, when, throw, ret, lift,
      modify; simpl.
  - intros Hp. destruct st; simpl; try discriminate.
    destruct (Inventory.reserve inv q) as [inv'|e]; [|discriminate].
    destruct (Inventory.isInStock inv') eqn:Hs; simpl; intros [= <-]; simpl;
      congruence || auto.
  - intros Hp. destruct (Inventory.deduct inv q) as [inv'|e]; [|discriminate].
    destruct (Inventory.isInStock inv') eqn:Hs; simpl; [intros [= <-]; simpl; auto|].
    destruct st; simpl; intros [= <-]; simpl; congruence || auto.
  - intros Hp. destruct (ProductStatus.eqb st s) eqn:He; simpl; [intros [= <-]; auto|].
    destruct (Inventory.isInStock inv) eqn:Hs; simpl.
    + rewrite andb_false_r. simpl. intros [= <-]. simpl. auto.
    + destruct s; simpl; try discriminate; intros [= <-]; simpl; discriminate.
Qed.

Lemma active_product_in_stock_witness :
  ProductSpec.activeInStock
    (snd (Product.reserveInventory 1%float 1734300000000%Z Scenario.chair)) /\
  Product.status (snd (Product.reserveInventory 1%float 1734300000000%Z Scenario.chair))
    = ProductStatus.OUT_OF_STOCK.
Proof.
  split; [|reflexivity].
  apply (active_product_in_stock (ProductSpec.ReserveInventory 1%float) 1734300000000%Z
           Scenario.chair).
  - reflexivity.
  - intros _. reflexivity.
  - reflexivity.
Defined.

(** ** The inventory service *)

(** The entry the validation records for an item: the product is missing
    or, whatever its status and stock, off the shelves. *)
Lemma validateItem_entry (item : InventoryService.InventoryReservationItem)
    (product : option Product.t) :
  InventoryService.validateItem item product
  = [InventoryService.mkInvalid (InventoryService.productId item)
       (InventoryService.productName item) (InventoryService.requestedQuantity item) 0%float
       (match product with None => "商品不存在" | Some _ => "商品已下架" end)].
Proof.
  destruct product as [product|]; [|reflexivity].
  unfold InventoryService.validateItem, Product.getStatus.
  destruct (Product.status product); reflexivity.
Qed.

Lemma validateLoop_entries (items : list InventoryService.InventoryReservationItem)
    (acc : list InventoryService.InvalidItem) (store : gmap string Product.t) :
  InventoryService.validateLoop items acc store
  = (Ok (acc ++ map (fun item =>
                       InventoryService.mkInvalid (InventoryService.productId item)
                         (InventoryService.productName item)
                         (InventoryService.requestedQuantity item) 0%float
                         (match store !! InventoryService.productId item with
                          | None => "商品不存在"
                          | Some _ => "商品已下架"
                          end)) items)%list, store).
Proof.
  revert acc. induction items as [|item rest IH]; intros acc; simpl.
  - now rewrite app_nil_r.
  - unfold bindM, InventoryService.findById. rewrite validateItem_entry, IH.
    now rewrite <- app_assoc.
Qed.

(** X18. [validateInventoryAvailability] finds every item of every batch
    invalid.  It returns one entry per item, in the order of the batch,
    with an available quantity of 0 and the reason that the product does
    not exist when it is not stored, and that it is off the shelves
    otherwise, whatever the status and the stock of the product; the answer
    is valid for the empty batch only, and the store is not written. *)
Theorem validateInventoryAvailability_rejects
    (items : list InventoryService.InventoryReservationItem) (store : gmap string Product.t) :
  exists result,
    InventoryService.validateInventoryAvailability items store = (Ok result, store) /\
    InventoryService.invalidItems result
    = map (fun item =>
             InventoryService.mkInvalid (InventoryService.productId item)
               (InventoryService.productName item)
               (InventoryService.requestedQuantity item) 0%float
               (match store !! InventoryService.productId item with
                | None => "商品不存在"
                | Some _ => "商品已下架"
                end)) items /\
    (InventoryService.isValid result = true <-> items = []).
Proof.
  unfold InventoryService.validateInventoryAvailability, bindM.
  rewrite validateLoop_entries. simpl. eexists. split; [reflexivity|]. simpl.
  split; [reflexivity|]. rewrite length_map.
  destruct items; simpl; split; congruence.
Qed.

(** X19. [reserveInventoryBatch] reserves nothing.  For the empty batch
    it returns no product; for every other batch it throws the validation
    error, whose lines name each item with the reason that the product does
    not exist or is off the shelves; either way the store is as it was. *)
Theorem reserveInventoryBatch_outcome
    (items : list InventoryService.InventoryReservationItem) (now : Date)
    (store : gmap string Product.t) :
  InventoryService.reserveInventoryBatch items now store
  = (match items with
     | [] => Ok []
     | _ :: _ =>
         Throw ("库存验证失败：" ++ String "010"
                  (JS.join (String "010" "")
                     (map (fun item =>
                             InventoryService.productName item ++ ": " ++
                             match store !! InventoryService.productId item with
                             | None => "商品不存在"
                             | Some _ => "商品已下架"
                             end) items)))
     end, store).
Proof.
  unfold InventoryService.reserveInventoryBatch,
    InventoryService.validateInventoryAvailability.
  unfold bindM at 1. unfold bindM at 1. rewrite validateLoop_entries.
  destruct items as [|item rest]; [reflexivity|].
  unfold ret at 1. cbn [app InventoryService.isValid InventoryService.invalidItems].
  rewrite length_map. cbn [length Nat.eqb negb when throw].
  rewrite map_map. reflexivity.
Qed.

(** Saving the outcome of an operation on a stored product keeps the keys
    of the store and every other product. *)
Lemma save_frame (store : gmap string Product.t) (k : string) (p p' : Product.t) :
  StoreSpec.wellKeyed store -> store !! k = Some p -> Product.id p' = Product.id p ->
  StoreSpec.wellKeyed (<[Product.id p' := p']> store) /\
  (forall j, is_Some ((<[Product.id p' := p']> store) !! j) <-> is_Some (store !! j)) /\
  (forall j, j <> k -> (<[Product.id p' := p']> store) !! j = store !! j).
Proof.
  intros Hw Hk Hid. pose proof (Hw k p Hk) as Hpk. rewrite Hid, Hpk.
  split; [|split].
  - intros j x. destruct (decide (k = j)) as [<-|Hne].
    + rewrite lookup_insert_eq. intros [= <-]. congruence.
    + rewrite lookup_insert_ne by exact Hne. apply Hw.
  - intros j. destruct (decide (k = j)) as [<-|Hne].
    + rewrite lookup_insert_eq, Hk. split; eauto.
    + now rewrite lookup_insert_ne by exact Hne.
  - intros j Hne. now rewrite lookup_insert_ne by congruence.
Qed.

Lemma releaseReservedInventoryBatch_frame (items : list InventoryService.ReleaseItem)
    (now : Date) (store store' : gmap string Product.t) (r : result unit) :
  StoreSpec.wellKeyed store ->
  InventoryService.releaseReservedInventoryBatch items now store = (r, store') ->
  StoreSpec.wellKeyed store' /\
  (forall j, is_Some (store' !! j) <-> is_Some (store !! j)) /\
  (forall j, ~ In j (map InventoryService.r_productId items) -> store' !! j = store !! j).
Proof.
  revert store. induction items as [|item rest IH]; intros store Hw; simpl.
  - intros [= <- <-]. auto.
  - unfold bindM at 1. unfold bindM at 1. unfold InventoryService.findById at 1.
    destruct (store !! InventoryService.r_productId item) as [p|] eqn:Hk.
    + destruct (Product.releaseInventory _ now p) as [[[]|e] p'] eqn:Hop.
      * apply (Product_run_inv (ProductSpec.ReleaseInventory _)) in Hop as [Hid _].
        destruct (save_frame store _ p p' Hw Hk Hid) as (Hw1 & Hd1 & Hf1).
        unfold InventoryService.save, modify. intros H.
        apply (IH _ Hw1) in H as (Hw2 & Hd2 & Hf2).
        split; [exact Hw2|]. split.
        -- intros j. now rewrite Hd2, Hd1.
        -- intros j Hj. rewrite Hf2, Hf1; auto.
      * unfold throw. intros [= <- <-]. auto.
    + unfold ret at 1. intros H. apply (IH _ Hw) in H as (Hw2 & Hd2 & Hf2).
      split; [exact Hw2|]. split; [exact Hd2|]. intros j Hj. apply Hf2. auto.
Qed.

Lemma deductInventoryBatch_frame (items : list InventoryService.ReleaseItem)
    (now : Date) (store store' : gmap string Product.t) (r : result unit) :
  StoreSpec.wellKeyed store ->
  InventoryService.deductInventoryBatch items now store = (r, store') ->
  StoreSpec.wellKeyed store' /\
  (forall j, is_Some (store' !! j) <-> is_Some (store !! j)) /\
  (forall j, ~ In j (map InventoryService.r_productId items) -> store' !! j = store !! j).
Proof.
  revert store. induction items as [|item rest IH]; intros store Hw; simpl.
  - intros [= <- <-]. auto.
  - unfold bindM at 1. unfold bindM at 1. unfold InventoryService.findById at 1.
    destruct (store !! InventoryService.r_productId item) as [p|] eqn:Hk.
    + destruct (Product.deductInventory _ now p) as [[[]|e] p'] eqn:Hop.
      * apply (Product_run_inv (ProductSpec.DeductInventory _)) in Hop as [Hid _].
        destruct (save_frame store _ p p' Hw Hk Hid) as (Hw1 & Hd1 & Hf1).
        unfold InventoryService.save, modify. intros H.
        apply (IH _ Hw1) in H as (Hw2 & Hd2 & Hf2).
        split; [exact Hw2|]. split.
        -- intros j. now rewrite Hd2, Hd1.
        -- intros j Hj. rewrite Hf2, Hf1; auto.
      * unfold throw. intros [= <- <-]. auto.
    + unfold ret at 1. intros H. apply (IH _ Hw) in H as (Hw2 & Hd2 & Hf2).
      split; [exact Hw2|]. split; [exact Hd2|]. intros j Hj. apply Hf2. auto.
Qed.

Lemma scenario_store_wellKeyed : StoreSpec.wellKeyed Scenario.store.
Proof.
  intros k p H. unfold Scenario.store in H.
  apply lookup_singleton_Some in H as [<- <-]. reflexivity.
Defined.

(** X20. The release and the deduction of a batch write the products of
    the batch only.  On a store that holds every product under its own
    identifier, [releaseReservedInventoryBatch] and [deductInventoryBatch]
    leave a store with the same identifiers, every product under its own,
    in which each product that the batch does not name is as it was; this
    holds also when the call throws part of the way.  Items whose product
    is not stored are passed over: a batch of such items returns and
    changes nothing. *)
Theorem batches_write_named_products_only (items : list InventoryService.ReleaseItem)
    (now : Date) (store : gmap string Product.t) :
  StoreSpec.wellKeyed store ->
  (forall batch, batch = InventoryService.releaseReservedInventoryBatch \/
                 batch = InventoryService.deductInventoryBatch ->
     forall r store', batch items now store = (r, store') ->
       StoreSpec.wellKeyed store' /\
       (forall j, is_Some (store' !! j) <-> is_Some (store !! j)) /\
       (forall j, ~ In j (map InventoryService.r_productId items) ->
                  store' !! j = store !! j)) /\
  ((forall item, In item items -> store !! InventoryService.r_productId item = None) ->
   InventoryService.releaseReservedInventoryBatch items now store = (Ok tt, store) /\
   InventoryService.deductInventoryBatch items now store = (Ok tt, store)).
Proof.
  intros Hw. split.
  - intros batch [-> | ->] r store' H.
    + exact (releaseReservedInventoryBatch_frame items now store store' r Hw H).
    + exact (deductInventoryBatch_frame items now store store' r Hw H).
  - clear Hw. induction items as [|item rest IH]; intros Hnone; [split; reflexivity|].
    destruct IH as [IH1 IH2]; [intros i Hi; apply Hnone; now right|].
    simpl. unfold bindM, InventoryService.findById.
    rewrite (Hnone item) by now left. simpl. split; assumption.
Qed.

Lemma batches_write_named_products_only_witness :
  StoreSpec.wellKeyed Scenario.store /\
  InventoryService.releaseReservedInventoryBatch
    [InventoryService.mkRelease "p9" 1%float] 1734300000000%Z Scenario.store
    = (Ok tt, Scenario.store) /\
  InventoryService.deductInventoryBatch
    [InventoryService.mkRelease "p9" 1%float] 1734300000000%Z Scenario.store
    = (Ok tt, Scenario.store).
Proof.
  split; [exact scenario_store_wellKeyed|].
  apply (batches_write_named_products_only [InventoryService.mkRelease "p9" 1%float]
           1734300000000%Z Scenario.store scenario_store_wellKeyed).
  intros item [<-|[]]. reflexivity.
Defined.

(** X21. [validateInventoryConsistency] reads the store and does not
    write it.  For a product that is not stored it reports the one issue
    that the product does not exist; for a stored product it reports
    consistency exactly when it lists no issue, which is when the reserved
    quantity is not greater than the total and neither is negative; an
    inventory that passed the validation of its constructor is reported
    consistent. *)
Theorem validateInventoryConsistency_outcome (productId : string)
    (store : gmap string Product.t) :
  exists c,
    InventoryService.validateInventoryConsistency productId store = (Ok c, store) /\
    match store !! productId with
    | None => c = InventoryService.mkConsistency false ["商品不存在"]
    | Some p =>
        (InventoryService.isConsistent c = true <-> InventoryService.issues c = []) /\
        (InventoryService.isConsistent c = true <->
         JS.gt (Inventory.reservedQuantity (Product.inventory p))
               (Inventory.quantity (Product.inventory p)) = false /\
         JS.lt (Inventory.quantity (Product.inventory p)) 0 = false /\
         JS.lt (Inventory.reservedQuantity (Product.inventory p)) 0 = false) /\
        (InventorySpec.validated (Product.inventory p) ->
         c = InventoryService.mkConsistency true [])
    end.
Proof.
  unfold InventoryService.validateInventoryConsistency, bindM, InventoryService.findById.
  destruct (store !! productId) as [p|]; [|eexists; split; reflexivity].
  unfold ret. eexists. split; [reflexivity|].
  unfold InventorySpec.validated, Product.getInventory, Inventory.getReservedQuantity,
    Inventory.getQuantity, InventoryService.push_issue.
  destruct (JS.gt _ _), (JS.lt (Inventory.quantity _) 0),
    (JS.lt (Inventory.reservedQuantity _) 0); simpl;
    repeat split; try congruence; try tauto; intros; intuition congruence.
Qed.

(** ** The checkout *)


Ltac bind_step H :=
  unfold bindM at 1 in H;
  match type of H with
  | (match ?m ?w with _ => _ end) = _ =>
      let a := fresh "a" in
      let e := fresh "e" in
      let w' := fresh "w" in
      let E := fresh "E" in
      destruct (m w) as [[a|e] w'] eqn:E; [|discriminate H]
  end.


Lemma execute_ok_inv {W Cart CartItem Product : Type}
    (deps : CreateOrderCommand.Collaborators W Cart CartItem Product)
    (request : CreateOrderCommand.CreateOrderRequest)
    (response : CreateOrderCommand.CreateOrderResponse) (w w' : W) :
  CreateOrderCommand.execute deps request w = (Ok response, w') ->
  exists userId cart wc items products w1,
    CreateOrderCommand.UserId_fromString deps (CreateOrderCommand.userId request)
      = Ok userId /\
    CreateOrderCommand.getCart deps (CreateOrderCommand.cartId request) userId w
      = (Ok cart, wc) /\
    CreateOrderCommand.cart_isEmpty deps cart = false /\
    CreateOrderCommand.inventoryItemsOf deps (CreateOrderCommand.cart_getItems deps cart)
      = Ok items /\
    CreateOrderCommand.inventoryService_reserveInventoryBatch deps items wc
      = (Ok products, w1) /\
    CreateOrderCommand.placeOrder deps request cart
      (CreateOrderCommand.cart_getItems deps cart) products w1 = (Ok response, w').
Proof.
  unfold CreateOrderCommand.execute. intros H.
  bind_step H. bind_step H. bind_step H. bind_step H. bind_step H.
  unfold lift in *. injection E as E <-. injection E2 as E2 <-.
  unfold when, throw, ret in E1.
  destruct (CreateOrderCommand.cart_isEmpty deps a0) eqn:Hempty; [discriminate|].
  injection E1 as _ <-.
  unfold try_catch in H.
  destruct (CreateOrderCommand.placeOrder deps request a0 _ a3 w4) as [[r|e] w5] eqn:Hp.
  - injection H as <- <-. exists a, a0, w1, a2, a3, w4. auto 10.
  - unfold bindM in H. rewrite releaseReservedInventory_swallows in H. discriminate H.
Qed.




(** ** Creation of an order *)

(** X24. What [Order.create] returns and when it throws.  It throws for
    an empty customer identifier and for an empty list of items.  The order
    it returns has the generated identifier, order number and date, the
    customer and the items given, is pending in order, payment and
    shipping status with no payment, shipping or delivery date, has the
    channel given or web, and carries exactly one pending event: the
    creation of the order with its total and the product, quantity and
    unit price of each item. *)
Theorem order_create_outcome (g : Order.Generated) (customerId : string)
    (items : list OrderItem.t) (shippingAddress billingAddress : Address.t)
    (paymentMethod : PaymentMethod) (shippingFee taxAmount discountAmount : option Money.t)
    (notes : option string) (metadata : Order.PartialMetadata) :
  (customerId = "" \/ items = [] ->
   exists e, Order.create g customerId items shippingAddress billingAddress paymentMethod
               shippingFee taxAmount discountAmount notes metadata = Throw e) /\
  (forall o,
     Order.create g customerId items shippingAddress billingAddress paymentMethod
       shippingFee taxAmount discountAmount notes metadata = Ok o ->
     Order.id o = Order.g_id g /\
     Order.orderNumber (Order.props o) = Order.g_orderNumber g /\
     Order.orderDate (Order.props o) = Order.g_now g /\
     Order.customerId (Order.props o) = customerId /\
     Order.items (Order.props o) = items /\
     Order.shippingAddress (Order.props o) = shippingAddress /\
     Order.billingAddress (Order.props o) = billingAddress /\
     Order.paymentMethod (Order.props o) = paymentMethod /\
     Order.notes (Order.props o) = notes /\
     Order.channel (Order.metadata (Order.props o))
       = default "web" (Order.p_channel metadata) /\
     (Order.getStatus o = OrderStatus.PENDING /\
      Order.getPaymentStatus o = PaymentStatus.PENDING /\
      Order.getShippingStatus o = ShippingStatus.PENDING) /\
     (Order.paidAt (Order.props o) = None /\ Order.shippedAt (Order.props o) = None /\
      Order.deliveredAt (Order.props o) = None) /\
     Order.domainEvents o
       = [Order.OrderCreatedEvent (Order.g_id g) (Order.g_orderNumber g) customerId
            (Order.totalAmount (Order.props o))
            (map (fun item => (OrderItem.productId item, OrderItem.quantity item,
                               OrderItem.unitPrice item)) items)]).
Proof.
  split.
  - intros Hbad.
    destruct (Order.create g customerId items shippingAddress billingAddress paymentMethod
                shippingFee taxAmount discountAmount notes metadata) as [o|e] eqn:Hc; [|eauto].
    apply Order_create_inv in Hc as (Hv & _ & Hcust & Hit & _).
    apply Order_validate_inv in Hv as (Hne & Hni & _).
    rewrite Hcust in Hne. rewrite Hit in Hni. destruct Hbad; contradiction.
  - intros o. unfold Order.create, bind.
    destruct (Order.defaultAmount items shippingFee) as [sf'|]; [|discriminate].
    destruct (Order.defaultAmount items taxAmount) as [tax'|]; [|discriminate].
    destruct (Order.defaultAmount items discountAmount) as [disc'|]; [|discriminate].
    destruct items as [|i rest]; [discriminate|].
    destruct (Order.calculateSubtotalFromItems (i :: rest)) as [s|]; [|discriminate].
    destruct (Money.subtract s disc') as [a|]; [|discriminate].
    destruct (Money.add a sf') as [b|]; [|discriminate].
    destruct (Money.add b tax') as [t|]; [|discriminate].
    unfold Order.new, bind.
    destruct (Order.validate _) as [[]|]; [|discriminate].
    intros [= <-]. simpl. repeat split.
Qed.

(** ** Comparison of amounts *)

Lemma compare_cases (a b : JS.number) :
  JS.isNaN a = false -> JS.isNaN b = false ->
  (JS.gt a b = true /\ JS.lt a b = false /\ JS.strict_eq a b = false) \/
  (JS.gt a b = false /\ JS.lt a b = true /\ JS.strict_eq a b = false) \/
  (JS.gt a b = false /\ JS.lt a b = false /\ JS.strict_eq a b = true).
Proof.
  intros Ha Hb. apply isNaN_false_Prim2SF in Ha. apply isNaN_false_Prim2SF in Hb.
  unfold JS.gt, JS.lt, JS.strict_eq.
  rewrite !FloatAxioms.ltb_spec, FloatAxioms.eqb_spec. unfold SFltb, SFeqb.
  rewrite (SFcompare_antisym (Prim2SF a) (Prim2SF b)).
  destruct (SFcompare (Prim2SF a) (Prim2SF b)) as [[]|] eqn:Hc; simpl; auto.
  apply SFcompare_None in Hc. tauto.
Qed.

(** X25. Two amounts of one currency compare in exactly one way.  For
    amounts that passed the validation of [Money] and have the same
    currency, [isGreaterThan] and [isLessThan] return, and exactly one of
    [isGreaterThan], [isLessThan] and [equals] answers true; [equals],
    and with it the order of the two, does not depend on which amount is
    the receiver. *)
Theorem money_comparison_trichotomy (x y : Money.t) :
  MoneySpec.valid x -> MoneySpec.valid y -> Money.currency x = Money.currency y ->
  exists greater less,
    Money.isGreaterThan x y = Ok greater /\ Money.isLessThan x y = Ok less /\
    Money.isGreaterThan y x = Ok less /\ Money.isLessThan y x = Ok greater /\
    Money.equals y x = Money.equals x y /\
    match greater, less, Money.equals x y with
    | true, false, false | false, true, false | false, false, true => True
    | _, _, _ => False
    end.
Proof.
  intros (_ & Hx & _) (_ & Hy & _) Hc.
  apply isFinite_not_NaN in Hx, Hy.
  unfold Money.isGreaterThan, Money.isLessThan, Money.equals. rewrite Hc.
  replace (Currency_eqb (Money.currency y) (Money.currency y)) with true
    by (symmetry; now apply Currency_eqb_eq).
  simpl. exists (JS.gt (Money.amount x) (Money.amount y)),
                (JS.lt (Money.amount x) (Money.amount y)).
  split; [reflexivity|]. split; [reflexivity|].
  split; [reflexivity|]. split; [reflexivity|].
  rewrite !andb_true_r.
  destruct (compare_cases _ _ Hx Hy) as [(Hg & Hl & He)|[(Hg & Hl & He)|(Hg & Hl & He)]];
    destruct (compare_cases _ _ Hy Hx) as [(Hg' & Hl' & He')|[(Hg' & Hl' & He')|(Hg' & Hl' & He')]];
    unfold JS.gt, JS.lt in *; rewrite ?Hg, ?Hl, ?He, ?He'; try congruence; auto.
Qed.

Lemma money_comparison_trichotomy_witness :
  exists greater less,
    Money.isGreaterThan (Scenario.cny 200) (Scenario.cny 188) = Ok greater /\
    Money.isLessThan (Scenario.cny 200) (Scenario.cny 188) = Ok less /\
    Money.isGreaterThan (Scenario.cny 188) (Scenario.cny 200) = Ok less /\
    Money.isLessThan (Scenario.cny 188) (Scenario.cny 200) = Ok greater /\
    Money.equals (Scenario.cny 188) (Scenario.cny 200)
      = Money.equals (Scenario.cny 200) (Scenario.cny 188) /\
    match greater, less, Money.equals (Scenario.cny 200) (Scenario.cny 188) with
    | true, false, false | false, true, false | false, false, true => True
    | _, _, _ => False
    end.
Proof.
  apply (money_comparison_trichotomy (Scenario.cny 200) (Scenario.cny 188)).
  - apply (Money_new_valid 200%float CNY). vm_compute. reflexivity.
  - apply (Money_new_valid 188%float CNY). vm_compute. reflexivity.
  - reflexivity.
Defined.

(** ** Inventory operations of a product *)

Lemma Inventory_apply_validated (op : InventorySpec.Operation) (i i' : Inventory.t)
    (q : JS.number) :
  InventorySpec.apply op i q = Ok i' -> InventorySpec.validated i'.
Proof.
  destruct op; simpl;
    unfold Inventory.reserve, Inventory.releaseReservation, Inventory.deduct,
      Inventory.addStock; intros Ha;
    repeat match type of Ha with
           | (if ?c then _ else _) = _ => destruct c; [discriminate|]
           end;
    now apply Inventory_new_inv in Ha.
Qed.

(** X26. What an inventory operation of a product leaves.  When
    [reserveInventory], [releaseInventory], [deductInventory] or
    [addStock] returns, the new inventory passed the validation of the
    [Inventory] constructor, the modification date is the time of the call,
    and the last pending event is the inventory update with the total
    quantity before and after; between the earlier events and it there is
    one status change, from the old status to the new, exactly when the
    status changed. *)
Theorem product_inventory_operations (op : ProductSpec.Operation) (now : Date)
    (p p' : Product.t) :
  (forall s, op <> ProductSpec.UpdateStatus s) ->
  ProductSpec.run op now p = (Ok tt, p') ->
  InventorySpec.validated (Product.inventory p') /\
  Product.updatedAt p' = now /\
  exists changes message,
    Product.domainEvents p'
    = (Product.domainEvents p ++ changes ++
       [Product.InventoryUpdatedEvent (Product.id p)
          (Inventory.quantity (Product.inventory p))
          (Inventory.quantity (Product.inventory p')) message])%list /\
    (changes = [] /\ Product.status p' = Product.status p \/
     changes = [Product.ProductStatusChangedEvent (Product.id p) (Product.status p)
                  (Product.status p')] /\
     Product.status p' <> Product.status p).
Proof.
  intros Hop. product_fields p.
  assert (Hdone : forall inv' pre changes message st',
            InventorySpec.validated inv' ->
            (changes = [] /\ st' = st \/
             changes = [Product.ProductStatusChangedEvent id st st'] /\ st' <> st) ->
            pre = (events ++ changes)%list ->
            InventorySpec.validated inv' /\ now = now /\
            exists changes message0,
              (pre ++ [Product.InventoryUpdatedEvent id (Inventory.quantity inv)
                         (Inventory.quantity inv') message])%list
              = (events ++ changes ++
                 [Product.InventoryUpdatedEvent id (Inventory.quantity inv)
                    (Inventory.quantity inv') message0])%list /\
              (changes = [] /\ st' = st \/
               changes = [Product.ProductStatusChangedEvent id st st'] /\ st' <> st)).
  { intros inv' pre changes message st' Hv Hc ->. split; [exact Hv|]. split; [reflexivity|].
    exists changes, message. split; [now rewrite <- app_assoc|exact Hc]. }
  destruct op as [q|q|q|q|s]; [| | | |now destruct (Hop s)]; clear Hop; simpl;
    unfold Product.reserveInventory, Product.releaseInventory, Product.deductInventory,
      Product.addStock, Product.updateStatus, Product.markAsOutOfStock, Product.activate,
      Product.updateStatus, bindM, get, when, throw, ret, lift, modify; simpl.
  - destruct st; simpl; try discriminate.
    destruct (Inventory.reserve inv q) as [inv'|e] eqn:Hi; [|discriminate].
    apply (Inventory_apply_validated InventorySpec.Reserve) in Hi.
    destruct (Inventory.isInStock inv'); simpl; intros [= <-]; simpl.
    + apply (Hdone inv' events []); [exact Hi|auto|now rewrite app_nil_r].
    + eapply (Hdone inv'); [exact Hi| |reflexivity]; right; split; [reflexivity|discriminate].
  - destruct (Inventory.releaseReservation inv q) as [inv'|e] eqn:Hi; [|discriminate].
    apply (Inventory_apply_validated InventorySpec.ReleaseReservation) in Hi.
    destruct st; simpl;
      try (intros [= <-]; simpl;
           apply (Hdone inv' events []); [exact Hi|auto|now rewrite app_nil_r]).
    destruct (Inventory.isInStock inv') eqn:Hs; simpl; [rewrite Hs; simpl|];
      intros [= <-]; simpl.
    + eapply (Hdone inv'); [exact Hi| |reflexivity]; right; split; [reflexivity|discriminate].
    + apply (Hdone inv' events []); [exact Hi|auto|now rewrite app_nil_r].
  - destruct (Inventory.deduct inv q) as [inv'|e] eqn:Hi; [|discriminate].
    apply (Inventory_apply_validated InventorySpec.Deduct) in Hi.
    destruct (Inventory.isInStock inv'); simpl.
    + intros [= <-]; simpl.
      apply (Hdone inv' events []); [exact Hi|auto|now rewrite app_nil_r].
    + destruct st; simpl; intros [= <-]; simpl;
        first [ apply (Hdone inv' events []); [exact Hi|auto|now rewrite app_nil_r]
              | eapply (Hdone inv'); [exact Hi| |reflexivity];
                right; split; [reflexivity|discriminate] ].
  - destruct (Inventory.addStock inv q) as [inv'|e] eqn:Hi; [|discriminate].
    apply (Inventory_apply_validated InventorySpec.AddStock) in Hi.
    destruct st; simpl;
      try (intros [= <-]; simpl;
           apply (Hdone inv' events []); [exact Hi|auto|now rewrite app_nil_r]).
    destruct (Inventory.isInStock inv') eqn:Hs; simpl; [rewrite Hs; simpl|];
      intros [= <-]; simpl.
    + eapply (Hdone inv'); [exact Hi| |reflexivity]; right; split; [reflexivity|discriminate].
    + apply (Hdone inv' events []); [exact Hi|auto|now rewrite app_nil_r].
Qed.

Lemma product_inventory_operations_witness :
  InventorySpec.validated
    (Product.inventory (snd (Product.reserveInventory 1%float 1734300000000%Z Scenario.chair))) /\
  Product.domainEvents (snd (Product.reserveInventory 1%float 1734300000000%Z Scenario.chair))
  = [Product.ProductStatusChangedEvent "p3" ProductStatus.ACTIVE ProductStatus.OUT_OF_STOCK;
     Product.InventoryUpdatedEvent "p3" 1%float 1%float "预留库存 1 件"].
Proof.
  split; [|vm_compute; reflexivity].
  apply (product_inventory_operations (ProductSpec.ReserveInventory 1%float) 1734300000000%Z
           Scenario.chair).
  - discriminate.
  - vm_compute. reflexivity.
Defined.

(** ** The checkout and the inventory service *)

Lemma inventoryItemsOf_length {W Cart CartItem Product : Type}
    (deps : CreateOrderCommand.Collaborators W Cart CartItem Product)
    (cartItems : list CartItem) (items : list InventoryService.InventoryReservationItem) :
  CreateOrderCommand.inventoryItemsOf deps cartItems = Ok items ->
  length items = length cartItems.
Proof.
  revert items. induction cartItems as [|c rest IH]; intros items; simpl.
  - now intros [= <-].
  - unfold bind. destruct (CreateOrderCommand.ProductId_fromString deps c); [|discriminate].
    destruct (CreateOrderCommand.inventoryItemsOf deps rest) as [l|]; [|discriminate].
    intros [= <-]. simpl. f_equal. now apply IH.
Qed.

(** X27. No checkout returns while the reservation turns every batch
    down.  With an inventory service that throws for every batch that has
    an item, as [reserveInventoryBatch] of the repository does, and a cart
    that has items unless it is empty, [execute] throws for every request
    and state: no order is created. *)
Theorem checkout_never_returns {W Cart CartItem Product : Type}
    (deps : CreateOrderCommand.Collaborators W Cart CartItem Product)
    (request : CreateOrderCommand.CreateOrderRequest) (w : W) :
  (forall items w0, items <> [] ->
     exists e w1,
       CreateOrderCommand.inventoryService_reserveInventoryBatch deps items w0 = (Throw e, w1)) ->
  (forall cart, CreateOrderCommand.cart_isEmpty deps cart = false ->
                CreateOrderCommand.cart_getItems deps cart <> []) ->
  exists e w', CreateOrderCommand.execute deps request w = (Throw e, w').
Proof.
  intros Hreserve Hcart.
  destruct (CreateOrderCommand.execute deps request w) as [[response|e] w'] eqn:He; [|eauto].
  apply execute_ok_inv in He
    as (userId & cart & wc & items & products & w1 & _ & _ & Hne & Hi & Hr & _).
  destruct (Hreserve items wc) as (e & w2 & Hthrow); [|congruence].
  apply inventoryItemsOf_length in Hi. specialize (Hcart cart Hne).
  destruct items; [|discriminate].
  destruct (CreateOrderCommand.cart_getItems deps cart); [congruence|discriminate].
Qed.

Lemma checkout_never_returns_witness :
  exists e w',
    CreateOrderCommand.execute (StoreCheckout.deps 1734300000000%Z) Scenario.request
      StoreCheckout.store = (Throw e, w').
Proof.
  apply (checkout_never_returns (StoreCheckout.deps 1734300000000%Z) Scenario.request
           StoreCheckout.store).
  - intros items w0 Hne. destruct (reserveInventoryBatch_never_reserves items
                                     1734300000000%Z w0 Hne) as [message H].
    exists message, w0. exact H.
  - intros cart. destruct cart; [discriminate|]. intros _. discriminate.
Defined.
